(** * equilibrio-vida-api: the activity store and the participation ledger

    A shallow embedding of the later revision of [server.js] (the handlers
    registered for [/atividades], [/atividades/:id], [/atividades/:id/join]
    and [/usuarios/:userId/atividades/:id/leave]) together with the
    properties of the two in-memory collections they share. *)

From Stdlib Require Import ZArith Ascii String List Bool Lia.
From Stdlib Require Import Floats.SpecFloat.
From stdpp Require Import gmap strings list fin_maps.

Set Warnings "-register-all".
Local Open Scope string_scope.
Local Open Scope list_scope.

(* ===================================================================== *)
(** ** JavaScript values *)
(* ===================================================================== *)

(** A JavaScript number is an IEEE-754 double; [spec_float] is the
    Standard Library's inductive description of one. *)
Abbreviation number := spec_float.

(** The values that reach the handlers: what [JSON.parse] builds from a
    request body, what the query-string parser builds, and [undefined] for
    a property that is not there. An object is a finite map from property
    names to values. *)
Inductive jsval :=
  | JUndefined
  | JNull
  | JBool (b : bool)
  | JNum (x : number)
  | JStr (s : string)
  | JArr (l : list jsval)
  | JObj (m : gmap string jsval).

Abbreviation obj := (gmap string jsval).

(** [o.k]: the value of an own property, [undefined] when it is absent.
    None of the names read by the handlers ([id], [criador], [userId]) is
    inherited from [Object.prototype]. *)
Definition prop (o : obj) (k : string) : jsval :=
  default JUndefined (o !! k).

(** [x === y] on numbers: IEEE equality, so [NaN] differs from everything,
    itself included, and [+0] equals [-0]. *)
Definition num_eq (x y : number) : bool := SFeqb x y.

(** [x === y]. Primitives of the same type are compared by value. Two
    objects (or arrays) are equal only when they are the same reference;
    every comparison in [server.js] has on one side a number or a value
    parsed from the request being served, and on the other a value stored
    by an earlier request, so two references never coincide. *)
Definition strict_eq (x y : jsval) : bool :=
  match x, y with
  | JUndefined, JUndefined => true
  | JNull, JNull => true
  | JBool a, JBool b => Bool.eqb a b
  | JNum a, JNum b => num_eq a b
  | JStr a, JStr b => String.eqb a b
  | _, _ => false
  end.

(** [ToBoolean]: what [if (v)] and [!v] test. *)
Definition truthy (v : jsval) : bool :=
  match v with
  | JUndefined | JNull => false
  | JBool b => b
  | JNum (S754_zero _) | JNum S754_nan => false
  | JNum _ => true
  | JStr s => negb (String.eqb s "")
  | JArr _ | JObj _ => true
  end.

(** The values that are not objects. *)
Definition primitive (v : jsval) : bool :=
  match v with
  | JArr _ | JObj _ => false
  | _ => true
  end.

(** The double nearest to a natural number (exact below 2^53; an array
    holds fewer than 2^32 elements). *)
Definition number_of_nat (n : nat) : number :=
  binary_normalize 53 1024 (Z.of_nat n) 0 false.

(** An uncaught exception; Express answers it with status 500. *)
Inductive exn := TypeError.

(** [Array.prototype.findIndex]: [None] stands for [-1]. *)
Fixpoint findIndex {A} (f : A -> bool) (l : list A) : option nat :=
  match l with
  | [] => None
  | x :: l' => if f x then Some 0 else option_map S (findIndex f l')
  end.

(** [Array.prototype.splice(index, 1)]: the removed elements and the array
    that is left. *)
Definition splice1 {A} (index : nat) (l : list A) : list A * list A :=
  (take 1 (drop index l), take index l ++ drop (S index) l).

(** [Array.prototype.filter] with a callback that may throw. *)
Fixpoint filter_throwing {A} (f : A -> exn + bool) (l : list A)
  : exn + list A :=
  match l with
  | [] => inr []
  | x :: l' =>
      match f x with
      | inl e => inl e
      | inr b =>
          match filter_throwing f l' with
          | inl e => inl e
          | inr r => inr (if b then x :: r else r)
          end
      end
  end.

(** [String.prototype.toLowerCase] restricted to the ASCII letters; the
    handlers are parametric in the conversion and this one instantiates
    them in the examples. *)
Definition ascii_lower (c : ascii) : ascii :=
  let n := nat_of_ascii c in
  if (65 <=? n)%nat && (n <=? 90)%nat then ascii_of_nat (n + 32) else c.

Fixpoint toLowerCase_ascii (s : string) : string :=
  match s with
  | EmptyString => EmptyString
  | String c s' => String (ascii_lower c) (toLowerCase_ascii s')
  end.

(* ===================================================================== *)
(** ** The collections *)
(* ===================================================================== *)

(** The object literal [{ userId, atividadeId }] pushed by the join
    handler: [userId] is taken from the body as it is, [atividadeId] is a
    number. *)
Module Participacao.
Record t := make { userId : jsval; atividadeId : number }.
End Participacao.

(** Modelled from the spec: the module [./data] required as [db] is not
    among the sources. It holds the two process-wide arrays the handlers
    use, [db.atividades] and [db.participacoes]. *)
Record Db := mkDb {
  atividades : list obj;
  participacoes : list Participacao.t
}.

(** Modelled from the spec: the collections before any request. *)
Definition db_vazio : Db := mkDb [] [].

(** What a handler does with [res]: [res.status(s).json(body)] (status 200
    when [status] is not called), or an exception that escapes. *)
Inductive outcome :=
  | Json (status : nat) (body : jsval)
  | Throws (e : exn).

Definition status_of (o : outcome) : option nat :=
  match o with
  | Json s _ => Some s
  | Throws _ => None
  end.

(** The body [{ erro: msg }]. *)
Definition erro (msg : string) : jsval := JObj {[ "erro" := JStr msg ]}.

(** The callback [(a) => a.id === atividadeId]. *)
Definition tem_id (atividadeId : number) (a : obj) : bool :=
  strict_eq (prop a "id") (JNum atividadeId).

(** The callback [(p) => p.userId === userId && p.atividadeId === atividadeId]. *)
Definition mesma_participacao (userId : jsval) (atividadeId : number)
  (p : Participacao.t) : bool :=
  strict_eq (Participacao.userId p) userId
  && num_eq (Participacao.atividadeId p) atividadeId.

(** [db.participacoes.some(...)], the membership query of the ledger. *)
Definition isParticipating (userId atividadeId : number) (db : Db) : bool :=
  existsb (mesma_participacao (JNum userId) atividadeId) (participacoes db).

(* ===================================================================== *)
(** ** The handlers *)
(* ===================================================================== *)

(** A handler reads and updates the collections and answers. *)
Definition handler := Db -> outcome * Db.

Section Handlers.

(** [String.prototype.toLowerCase]. *)
Variable toLowerCase : string -> string.

(** [v.toLowerCase()]: only a string has the method; on [undefined] or
    [null] the property access throws, on any other value the call
    does. *)
Definition call_toLowerCase (v : jsval) : exn + string :=
  match v with
  | JStr s => inr (toLowerCase s)
  | _ => inl TypeError
  end.

(** The callback [(a) => a.criador.toLowerCase() === criador.toLowerCase()]. *)
Definition mesmo_criador (criador : jsval) (a : obj) : exn + bool :=
  match call_toLowerCase (prop a "criador") with
  | inl e => inl e
  | inr x =>
      match call_toLowerCase criador with
      | inl e => inl e
      | inr y => inr (String.eqb x y)
      end
  end.

(** [GET /atividades]; [criador] is [req.query.criador]. The
    [console.log] is left out. *)
Definition get_atividades (criador : jsval) : handler := fun db =>
  if truthy criador then
    match filter_throwing (mesmo_criador criador) (atividades db) with
    | inl e => (Throws e, db)
    | inr filtradas => (Json 200 (JArr (JObj <$> filtradas)), db)
    end
  else (Json 200 (JArr (JObj <$> atividades db)), db).

(** [GET /atividades/:id]; [atividadeId] is [Number(req.params.id)] and
    [userId] is [req.query.userId ? Number(req.query.userId) : null],
    with [None] for [null]. *)
Definition get_atividades_id (atividadeId : number) (userId : option number)
  : handler := fun db =>
  match List.find (tem_id atividadeId) (atividades db) with
  | None => (Json 404 (erro "Atividade não encontrada"), db)
  | Some atividade =>
      let participa :=
        match userId with
        | None => false
        | Some userId => isParticipating userId atividadeId db
        end in
      (Json 200 (JObj (<["participa" := JBool participa]> atividade)), db)
  end.

(** [POST /atividades]; [body] is [req.body]. In
    [{ id: length + 1, ...req.body }] the properties of the body are
    copied after [id] is set, so the body's own [id] wins. *)
Definition post_atividades (body : obj) : handler := fun db =>
  let nova : obj :=
    body ∪ {[ "id" := JNum (number_of_nat (length (atividades db) + 1)) ]} in
  (Json 201 (JObj nova), mkDb (atividades db ++ [nova]) (participacoes db)).

(** [DELETE /atividades/:id]; [id] is [Number(req.params.id)]. *)
Definition delete_atividades_id (id : number) : handler := fun db =>
  match findIndex (tem_id id) (atividades db) with
  | None => (Json 404 (erro "Atividade não encontrada"), db)
  | Some index =>
      let '(removida, resto) := splice1 index (atividades db) in
      (Json 200 (JObj {[ "mensagem" := JStr "Atividade removida";
                         "removida" := JArr (JObj <$> removida) ]}),
       mkDb resto (participacoes db))
  end.

(** [POST /atividades/:id/join]; [atividadeId] is [Number(req.params.id)]
    and [body] is [req.body]. *)
Definition post_atividades_id_join (atividadeId : number) (body : obj)
  : handler := fun db =>
  let userId := prop body "userId" in
  if negb (truthy userId) then
    (Json 400 (erro "userId é obrigatório"), db)
  else
    match List.find (tem_id atividadeId) (atividades db) with
    | None => (Json 404 (erro "Atividade não encontrada"), db)
    | Some atividade =>
        match List.find (mesma_participacao userId atividadeId)
                (participacoes db) with
        | Some jaParticipa =>
            (Json 400 (erro "Usuário já participa desta atividade"), db)
        | None =>
            (Json 200
               (JObj {[ "mensagem" :=
                          JStr "Entrada na atividade realizada com sucesso";
                        "atividadeId" := JNum atividadeId;
                        "userId" := userId ]}),
             mkDb (atividades db)
                  (participacoes db
                     ++ [Participacao.make userId atividadeId]))
        end
    end.

(** [DELETE /usuarios/:userId/atividades/:id/leave]; [atividadeId] is
    [Number(req.params.id)] and [userId] is [Number(req.params.userId)]. *)
Definition delete_usuarios_atividades_leave (userId atividadeId : number)
  : handler := fun db =>
  match findIndex (mesma_participacao (JNum userId) atividadeId)
          (participacoes db) with
  | None => (Json 404 (erro "Usuário não participa desta atividade"), db)
  | Some index =>
      (Json 200
         (JObj {[ "mensagem" := JStr "Usuário saiu da atividade com sucesso";
                  "atividadeId" := JNum atividadeId;
                  "userId" := JNum userId ]}),
       mkDb (atividades db) (snd (splice1 index (participacoes db))))
  end.

(** The six requests the router dispatches. *)
Inductive request :=
  | ListBy (criador : jsval)
  | Get (atividadeId : number) (userId : option number)
  | Create (body : obj)
  | Delete (id : number)
  | Join (atividadeId : number) (body : obj)
  | Leave (userId atividadeId : number).

Definition handle (r : request) : handler :=
  match r with
  | ListBy criador => get_atividades criador
  | Get atividadeId userId => get_atividades_id atividadeId userId
  | Create body => post_atividades body
  | Delete id => delete_atividades_id id
  | Join atividadeId body => post_atividades_id_join atividadeId body
  | Leave userId atividadeId =>
      delete_usuarios_atividades_leave userId atividadeId
  end.

(** Requests are served one after the other. *)
Fixpoint run (rs : list request) (db : Db) : Db :=
  match rs with
  | [] => db
  | r :: rs' => run rs' (snd (handle r db))
  end.

(** The states the service can be in, starting from empty collections. *)
Inductive reachable : Db -> Prop :=
  | reachable_vazio : reachable db_vazio
  | reachable_step r db : reachable db -> reachable (snd (handle r db)).

End Handlers.

(* ===================================================================== *)
(** ** Scenarios used as examples *)
(* ===================================================================== *)

(** The numbers 1, 2, 42 and 99. *)
Definition n1 : number := number_of_nat 1.
Definition n2 : number := number_of_nat 2.
Definition n42 : number := number_of_nat 42.

(** Two activities are created, the first is deleted: one activity with
    id 2 is left, and the next id handed out is 2 again. *)
Definition reqs_colisao : list request :=
  [Create {[ "nome" := JStr "A" ]}; Create {[ "nome" := JStr "B" ]};
   Delete n1].

Definition db_colisao : Db := run toLowerCase_ascii reqs_colisao db_vazio.

(** The same followed by a third creation: two activities with id 2. *)
Definition db_id_repetido : Db :=
  snd (post_atividades {[ "nome" := JStr "C" ]} db_colisao).

(** One activity, created from an empty body. *)
Definition db_uma : Db := run toLowerCase_ascii [Create ∅] db_vazio.

(** One activity and the same object-valued [userId] joined twice. *)
Definition reqs_objeto : list request :=
  [Create ∅; Join n1 {[ "userId" := JObj ∅ ]};
   Join n1 {[ "userId" := JObj ∅ ]}].

(** One activity joined by the string ["42"] and by the number 42. *)
Definition reqs_string_e_numero : list request :=
  [Create ∅; Join n1 {[ "userId" := JStr "42" ]};
   Join n1 {[ "userId" := JNum n42 ]}].

Definition db_string_e_numero : Db :=
  run toLowerCase_ascii reqs_string_e_numero db_vazio.

(** One activity joined by the string ["42"] alone. *)
Definition db_string : Db :=
  run toLowerCase_ascii [Create ∅; Join n1 {[ "userId" := JStr "42" ]}]
    db_vazio.

(** One activity joined by user 42. *)
Definition db_participa : Db :=
  run toLowerCase_ascii [Create ∅; Join n1 {[ "userId" := JNum n42 ]}]
    db_vazio.

(** Three activities; the creators of the first and the third differ in
    case only. *)
Definition db_criadores : Db :=
  run toLowerCase_ascii
    [Create {[ "nome" := JStr "Yoga"; "criador" := JStr "Ana" ]};
     Create {[ "nome" := JStr "Leitura"; "criador" := JStr "Bia" ]};
     Create {[ "nome" := JStr "Corrida"; "criador" := JStr "ANA" ]}]
    db_vazio.

(* ===================================================================== *)
(** ** The invariants of the participation ledger *)
(* ===================================================================== *)

(** No record is matched, under the comparison of the join and leave
    handlers, by a record pushed after it. *)
Fixpoint sem_repeticao (l : list Participacao.t) : Prop :=
  match l with
  | [] => True
  | p :: l' =>
      (forall q, In q l' ->
         mesma_participacao (Participacao.userId q)
           (Participacao.atividadeId q) p = false)
      /\ sem_repeticao l'
  end.

(** What join checks before it pushes: the [userId] is truthy and the
    activity id equals itself (it is not [NaN]). *)
Definition bem_formada (p : Participacao.t) : Prop :=
  truthy (Participacao.userId p) = true
  /\ num_eq (Participacao.atividadeId p) (Participacao.atividadeId p) = true.

(** The claim on uniqueness of participations, read on values: two
    positions of the ledger never hold the same record. *)
Definition um_registo_por_par (db : Db) : Prop :=
  forall i j p,
    participacoes db !! i = Some p -> participacoes db !! j = Some p -> i = j.

(** The case-insensitive comparison of creator names, as the specification
    words it: the activity has a creator name and it equals [x] once both
    are lowered. *)
Definition criador_igual (toLowerCase : string -> string) (x : string)
  (a : obj) : bool :=
  match prop a "criador" with
  | JStr s => String.eqb (toLowerCase s) (toLowerCase x)
  | _ => false
  end.

(** A stored [userId] that is a string. *)
Definition userId_string (p : Participacao.t) : bool :=
  match Participacao.userId p with
  | JStr _ => true
  | _ => false
  end.

(* ===================================================================== *)
(** ** Requests that cannot make ids collide *)
(* ===================================================================== *)

(** A request that is not a deletion and, when it is a creation, has a
    body without an [id] property of its own. *)
Definition sem_delete_nem_id (r : request) : bool :=
  match r with
  | Delete _ => false
  | Create body =>
      match body !! "id" with
      | None => true
      | Some _ => false
      end
  | _ => true
  end.

(* ===================================================================== *)
(** ** The earlier revision of the handlers *)
(* ===================================================================== *)

(** The first half of [server.js] (its lines 1 to 300) is an earlier
    revision of the same service: the filter is [creatorName], get adds no
    [participa], a participation is the pair [{ rm, atividadeId }], join
    reads [rm] from the query string or from the body and never tests its
    presence, and leave reads [rm] from the body. The creation is repeated
    on the earlier collections; the deletion of an activity has the same
    text as in the later revision. *)
Module Rev1.

Module Participacao.
Record t := make { rm : jsval; atividadeId : number }.
End Participacao.

(** Modelled from the spec: the module [./data] required as [db] is not
    among the sources; it holds [db.atividades] and [db.participacoes]. *)
Record Db := mkDb {
  atividades : list obj;
  participacoes : list Participacao.t
}.

Definition handler := Db -> outcome * Db.

(** The callback [(p) => p.rm === rm && p.atividadeId === atividadeId]. *)
Definition mesma_participacao (rm : jsval) (atividadeId : number)
  (p : Participacao.t) : bool :=
  strict_eq (Participacao.rm p) rm
  && num_eq (Participacao.atividadeId p) atividadeId.

(** The callback
    [(a) => a.creatorName.toLowerCase() === creatorName.toLowerCase()]. *)
Definition mesmo_criador (toLowerCase : string -> string)
  (creatorName : jsval) (a : obj) : exn + bool :=
  match call_toLowerCase toLowerCase (prop a "creatorName") with
  | inl e => inl e
  | inr x =>
      match call_toLowerCase toLowerCase creatorName with
      | inl e => inl e
      | inr y => inr (String.eqb x y)
      end
  end.

(** [GET /atividades]; [creatorName] is [req.query.creatorName]. *)
Definition get_atividades (toLowerCase : string -> string)
  (creatorName : jsval) : handler := fun db =>
  if truthy creatorName then
    match filter_throwing (mesmo_criador toLowerCase creatorName)
            (atividades db) with
    | inl e => (Throws e, db)
    | inr filtradas => (Json 200 (JArr (JObj <$> filtradas)), db)
    end
  else (Json 200 (JArr (JObj <$> atividades db)), db).

(** [GET /atividades/:id]; [id] is [Number(req.params.id)]. *)
Definition get_atividades_id (id : number) : handler := fun db =>
  match List.find (tem_id id) (atividades db) with
  | None => (Json 404 (erro "Atividade não encontrada"), db)
  | Some atividade => (Json 200 (JObj atividade), db)
  end.

(** [POST /atividades]; [body] is [req.body]. *)
Definition post_atividades (body : obj) : handler := fun db =>
  let nova : obj :=
    body ∪ {[ "id" := JNum (number_of_nat (length (atividades db) + 1)) ]} in
  (Json 201 (JObj nova), mkDb (atividades db ++ [nova]) (participacoes db)).

(** [POST /atividades/:id/join], the handler that reads the query string;
    [atividadeId] is [Number(req.params.id)] and [rm] is
    [Number(req.query.rm)], which is [NaN] when the parameter is missing
    or is not a numeral. *)
Definition post_atividades_id_join_query (atividadeId rm : number)
  : handler := fun db =>
  match List.find (tem_id atividadeId) (atividades db) with
  | None => (Json 404 (erro "Atividade não encontrada"), db)
  | Some atividade =>
      match List.find (mesma_participacao (JNum rm) atividadeId)
              (participacoes db) with
      | Some jaParticipa =>
          (Json 400 (erro "Usuário já participa desta atividade"), db)
      | None =>
          (Json 200
             (JObj {[ "mensagem" :=
                        JStr "Entrada na atividade realizada com sucesso";
                      "atividade" := JObj atividade ]}),
           mkDb (atividades db)
                (participacoes db
                   ++ [Participacao.make (JNum rm) atividadeId]))
      end
  end.


(** [DELETE /atividades/:id/leave]; [atividadeId] is
    [Number(req.params.id)] and [body] is [req.body]. *)
Definition delete_atividades_id_leave (atividadeId : number) (body : obj)
  : handler := fun db =>
  let rm := prop body "rm" in
  match findIndex (mesma_participacao rm atividadeId) (participacoes db) with
  | None => (Json 404 (erro "Usuário não participa desta atividade"), db)
  | Some index =>
      (Json 200
         (JObj {[ "mensagem" := JStr "Usuário saiu da atividade com sucesso";
                  "atividadeId" := JNum atividadeId;
                  "rm" := rm ]}),
       mkDb (atividades db) (snd (splice1 index (participacoes db))))
  end.

End Rev1.

(** One activity in the earlier revision, created from an empty body. *)
Definition rev1_db_uma : Rev1.Db :=
  snd (Rev1.post_atividades ∅ (Rev1.mkDb [] [])).

(* ===================================================================== *)
(** ** Numbers and strict equality *)
(* ===================================================================== *)

Lemma shr_1_nonneg mrs : (0 <= shr_m mrs)%Z -> (0 <= shr_m (shr_1 mrs))%Z.
Proof.
  destruct mrs as [m r s]; simpl.
  destruct m as [|[p|p|]|p]; simpl; lia.
Qed.

Lemma iter_pos_shr_1_nonneg p : forall mrs,
  (0 <= shr_m mrs)%Z -> (0 <= shr_m (SpecFloat.iter_pos shr_1 p mrs))%Z.
Proof.
  induction p as [p IH|p IH|]; intros mrs H; simpl.
  - apply IH, IH, shr_1_nonneg, H.
  - apply IH, IH, H.
  - apply shr_1_nonneg, H.
Qed.

Lemma shr_fexp_nonneg prec emax m e l :
  (0 <= m)%Z -> (0 <= shr_m (fst (shr_fexp prec emax m e l)))%Z.
Proof.
  intros H. unfold shr_fexp, shr.
  assert (H0 : (0 <= shr_m (shr_record_of_loc m l))%Z)
    by (destruct l as [|[]]; exact H).
  destruct (fexp prec emax (Zdigits2 m + e) - e)%Z; simpl;
    auto using iter_pos_shr_1_nonneg.
Qed.

Lemma round_nearest_even_nonneg m l :
  (0 <= m)%Z -> (0 <= round_nearest_even m l)%Z.
Proof.
  intros H. unfold round_nearest_even.
  destruct l as [|[]]; try destruct (Z.even m); lia.
Qed.

Lemma binary_round_aux_not_nan prec emax sx mx ex lx :
  (0 <= mx)%Z -> binary_round_aux prec emax sx mx ex lx <> S754_nan.
Proof.
  intros H. unfold binary_round_aux.
  pose proof (shr_fexp_nonneg prec emax mx ex lx H) as H1.
  destruct (shr_fexp prec emax mx ex lx) as [mrs' e']; simpl in H1.
  pose proof (shr_fexp_nonneg prec emax _ e' loc_Exact
                (round_nearest_even_nonneg _ (loc_of_shr_record mrs') H1))
    as H2.
  destruct (shr_fexp prec emax _ e' loc_Exact) as [mrs'' e'']; simpl in H2.
  destruct (shr_m mrs''); try lia; try discriminate.
  destruct (_ <=? _)%Z; discriminate.
Qed.

(** An array length plus one is never [NaN]. *)
Lemma number_of_nat_not_nan n : number_of_nat n <> S754_nan.
Proof.
  unfold number_of_nat, binary_normalize.
  destruct (Z.of_nat n); try discriminate;
    unfold binary_round; destruct (shl_align _ _ _);
    apply binary_round_aux_not_nan; lia.
Qed.

Lemma num_eq_refl x : x <> S754_nan -> num_eq x x = true.
Proof.
  intros H. destruct x as [s|s|  |s m e]; try congruence.
  - reflexivity.
  - destruct s; reflexivity.
  - unfold num_eq, SFeqb, SFcompare.
    rewrite Z.compare_refl, Pos.compare_cont_refl. destruct s; reflexivity.
Qed.

Lemma num_eq_true_refl x y :
  num_eq x y = true -> num_eq x x = true /\ num_eq y y = true.
Proof.
  intros H. split; apply num_eq_refl; intros ->.
  - discriminate.
  - destruct x; discriminate.
Qed.

Lemma number_of_nat_eq_refl n : num_eq (number_of_nat n) (number_of_nat n) = true.
Proof. apply num_eq_refl, number_of_nat_not_nan. Qed.

(** On truthy primitives [===] is reflexive. *)
Lemma strict_eq_refl v :
  primitive v = true -> truthy v = true -> strict_eq v v = true.
Proof.
  destruct v as [| |b|x|s|l|m]; simpl; try discriminate; intros _ H.
  - destruct b; [reflexivity | discriminate].
  - apply num_eq_refl. intros ->. discriminate.
  - apply String.eqb_refl.
Qed.

(** A number is never [===] to a value that is not a number. *)
Lemma strict_eq_num_inv v n :
  strict_eq v (JNum n) = true -> exists m, v = JNum m /\ num_eq m n = true.
Proof. destruct v; simpl; try discriminate. eauto. Qed.

Lemma tem_id_not_nan n a : tem_id n a = true -> num_eq n n = true.
Proof.
  unfold tem_id. intros H. apply strict_eq_num_inv in H as (m & _ & H).
  apply (num_eq_true_refl m n H).
Qed.

(* ===================================================================== *)
(** ** Arrays: find, findIndex, splice *)
(* ===================================================================== *)

Section Arrays.
Context {A : Type}.
Implicit Types (f : A -> bool) (l : list A).

Lemma findIndex_None f l :
  findIndex f l = None <-> (forall x, In x l -> f x = false).
Proof.
  induction l as [|x l IH]; simpl.
  - split; [intros _ y [] | reflexivity].
  - destruct (f x) eqn:Hx.
    + split; [discriminate |]. intros H. rewrite (H x) in Hx by auto.
      discriminate.
    + destruct (findIndex f l) as [i|]; simpl.
      * split; [discriminate |]. intros H.
        assert (Hn : Some i = None); [| discriminate].
        apply (proj2 IH). intros y Hy. apply H. auto.
      * split; [| reflexivity]. intros _ y [<- | Hy]; [exact Hx |].
        apply (proj1 IH); auto.
Qed.

(** [findIndex] returns the first position whose element passes. *)
Lemma findIndex_Some f l i :
  findIndex f l = Some i <->
  exists x, l !! i = Some x /\ f x = true
            /\ (forall j y, j < i -> l !! j = Some y -> f y = false).
Proof.
  revert i. induction l as [|x l IH]; intros i; simpl.
  - split; [discriminate |]. intros (y & Hy & _). discriminate.
  - destruct (f x) eqn:Hx.
    + split.
      * intros [= <-]. exists x. repeat split; auto. intros j y Hj. lia.
      * intros (y & Hy & Hfy & Hmin). destruct i as [|i]; [reflexivity |].
        rewrite (Hmin 0 x) in Hx by (simpl; auto with lia). discriminate.
    + destruct (findIndex f l) as [k|] eqn:Hk; simpl.
      * split.
        -- intros [= <-]. destruct (proj1 (IH k) eq_refl) as (y & Hy & Hfy & Hmin).
           exists y. repeat split; auto.
           intros [|j] z Hj; simpl; [intros [= <-]; exact Hx |].
           apply Hmin. lia.
        -- intros (y & Hy & Hfy & Hmin). destruct i as [|i]; simpl in Hy.
           ++ injection Hy as ->. congruence.
           ++ f_equal. assert (Hi : Some k = Some i); [| congruence].
              apply (proj2 (IH i)). exists y. repeat split; auto.
              intros j z Hj Hz. apply (Hmin (S j) z); [lia | exact Hz].
      * split; [discriminate |].
        intros (y & Hy & Hfy & Hmin). destruct i as [|i]; simpl in Hy.
        -- injection Hy as ->. congruence.
        -- assert (Hi : None = Some i); [| discriminate].
           apply (proj2 (IH i)). exists y. repeat split; auto.
           intros j z Hj Hz. apply (Hmin (S j) z); [lia | exact Hz].
Qed.

(** [find] returns the element at the position [findIndex] returns. *)
Lemma find_findIndex f l :
  List.find f l = match findIndex f l with
                  | Some i => l !! i
                  | None => None
                  end.
Proof.
  induction l as [|x l IH]; simpl; [reflexivity |].
  destruct (f x); [reflexivity |].
  rewrite IH. destruct (findIndex f l); reflexivity.
Qed.

Lemma find_None_iff f l :
  List.find f l = None <-> (forall x, In x l -> f x = false).
Proof.
  split; [apply find_none |].
  intros H. rewrite find_findIndex.
  rewrite (proj2 (findIndex_None f l) H). reflexivity.
Qed.

Lemma existsb_false_iff f l :
  existsb f l = false <-> (forall x, In x l -> f x = false).
Proof.
  induction l as [|x l IH]; simpl.
  - split; [intros _ y [] | reflexivity].
  - rewrite orb_false_iff, IH. split.
    + intros [Hx H] y [<- | Hy]; auto.
    + intros H. split; auto.
Qed.

(** [splice(index, 1)] at a position of the array removes that element and
    leaves the others in order. *)
Lemma splice1_lookup index l x :
  l !! index = Some x ->
  splice1 index l = ([x], base.delete index l).
Proof.
  intros H. unfold splice1. f_equal.
  - rewrite (drop_S l x index H). reflexivity.
  - symmetry. apply delete_take_drop.
Qed.

Lemma In_delete i l x : In x (base.delete i l) -> In x l.
Proof.
  revert i. induction l as [|y l IH]; intros [|i]; simpl; auto.
  intros [<- | H]; eauto.
Qed.

End Arrays.

(* ===================================================================== *)
(** ** What each handler does to the two collections *)
(* ===================================================================== *)

Lemma get_atividades_db toLowerCase criador db :
  snd (get_atividades toLowerCase criador db) = db.
Proof.
  unfold get_atividades. destruct (truthy criador); [| reflexivity].
  destruct (filter_throwing _ _); reflexivity.
Qed.

Lemma get_atividades_id_db atividadeId userId db :
  snd (get_atividades_id atividadeId userId db) = db.
Proof.
  unfold get_atividades_id. destruct (List.find _ _); reflexivity.
Qed.

Lemma delete_atividades_id_participacoes id db :
  participacoes (snd (delete_atividades_id id db)) = participacoes db.
Proof.
  unfold delete_atividades_id. destruct (findIndex _ _); reflexivity.
Qed.

(** Join either leaves the ledger as it is or pushes the pair of the
    request, and it pushes only after the three checks have passed. *)
Lemma join_participacoes atividadeId body db :
  let userId := prop body "userId" in
  participacoes (snd (post_atividades_id_join atividadeId body db))
    = participacoes db
  \/ (truthy userId = true
      /\ (exists a, In a (atividades db) /\ tem_id atividadeId a = true)
      /\ (forall p, In p (participacoes db) ->
            mesma_participacao userId atividadeId p = false)
      /\ participacoes (snd (post_atividades_id_join atividadeId body db))
         = participacoes db ++ [Participacao.make userId atividadeId]).
Proof.
  intros userId. unfold post_atividades_id_join. fold userId.
  destruct (truthy userId) eqn:Ht; simpl; [| left; reflexivity].
  destruct (List.find (tem_id atividadeId) _) as [a|] eqn:Ha;
    [| left; reflexivity].
  destruct (List.find (mesma_participacao _ _) _) eqn:Hp;
    [left; reflexivity |].
  right. repeat split.
  - exists a. apply find_some in Ha. exact Ha.
  - apply find_none. exact Hp.
Qed.

Lemma leave_participacoes userId atividadeId db :
  participacoes (snd (delete_usuarios_atividades_leave userId atividadeId db))
  = match findIndex (mesma_participacao (JNum userId) atividadeId)
            (participacoes db) with
    | Some index => base.delete index (participacoes db)
    | None => participacoes db
    end.
Proof.
  unfold delete_usuarios_atividades_leave.
  destruct (findIndex _ _) as [i|] eqn:Hi; [| reflexivity].
  apply findIndex_Some in Hi as (p & Hp & _).
  rewrite (splice1_lookup i _ p Hp). reflexivity.
Qed.

Lemma handle_participacoes toLowerCase r db :
  match r with
  | Join _ _ | Leave _ _ => True
  | _ => participacoes (snd (handle toLowerCase r db)) = participacoes db
  end.
Proof.
  destruct r; simpl; auto.
  - rewrite get_atividades_db. reflexivity.
  - rewrite get_atividades_id_db. reflexivity.
  - apply delete_atividades_id_participacoes.
Qed.

(* ===================================================================== *)
(** ** The ledger invariants hold in every reachable state *)
(* ===================================================================== *)

Lemma sem_repeticao_app l userId atividadeId :
  sem_repeticao l ->
  (forall p, In p l -> mesma_participacao userId atividadeId p = false) ->
  sem_repeticao (l ++ [Participacao.make userId atividadeId]).
Proof.
  induction l as [|p l IH]; simpl; intros Hl Hnew.
  - split; [intros q [] | exact I].
  - destruct Hl as [Hp Hl]. split.
    + intros q Hq. apply in_app_or in Hq as [Hq | [<- | []]]; simpl; auto.
    + apply IH; auto.
Qed.

Lemma sem_repeticao_delete i l :
  sem_repeticao l -> sem_repeticao (base.delete i l).
Proof.
  revert i. induction l as [|p l IH]; intros [|i]; simpl; auto.
  - intros [_ H]. exact H.
  - intros [Hp Hl]. split; [| apply IH; exact Hl].
    intros q Hq. apply Hp. apply (In_delete i l q Hq).
Qed.

Lemma sem_repeticao_lookup l :
  sem_repeticao l ->
  forall i j p q, i < j -> l !! i = Some p -> l !! j = Some q ->
    mesma_participacao (Participacao.userId q) (Participacao.atividadeId q) p
    = false.
Proof.
  induction l as [|x l IH]; intros Hl i j p q Hij Hi Hj; [discriminate |].
  destruct Hl as [Hx Hl]. destruct j as [|j]; [lia |]. simpl in Hj.
  destruct i as [|i]; simpl in Hi.
  - injection Hi as ->. apply Hx.
    apply list_elem_of_In, list_elem_of_lookup. eauto.
  - apply (IH Hl i j); auto with lia.
Qed.

Lemma Forall_delete {A} (P : A -> Prop) i (l : list A) :
  Forall P l -> Forall P (base.delete i l).
Proof.
  intros H. apply List.Forall_forall. intros x Hx.
  apply (proj1 (List.Forall_forall P l) H), (In_delete i l x Hx).
Qed.

Lemma reachable_ledger toLowerCase db :
  reachable toLowerCase db ->
  sem_repeticao (participacoes db) /\ Forall bem_formada (participacoes db).
Proof.
  induction 1 as [|r db Hr [IH1 IH2]]; [split; [exact I | constructor] |].
  pose proof (handle_participacoes toLowerCase r db) as Hframe.
  destruct r as [c|a u|b|i|a b|u a]; try (rewrite Hframe; auto).
  - simpl.
    destruct (join_participacoes a b db) as [-> | (Ht & (x & _ & Hx) & Hnew & ->)];
      [auto |].
    split; [apply sem_repeticao_app; auto |].
    apply Forall_app. split; [exact IH2 |].
    constructor; [| constructor]. split; [exact Ht |].
    apply (tem_id_not_nan a x Hx).
  - simpl. rewrite leave_participacoes.
    destruct (findIndex _ _); [| auto].
    split; [apply sem_repeticao_delete | apply Forall_delete]; auto.
Qed.

Lemma reachable_run toLowerCase rs : forall db,
  reachable toLowerCase db -> reachable toLowerCase (run toLowerCase rs db).
Proof.
  induction rs as [|r rs IH]; intros db H; simpl; [exact H |].
  apply IH. constructor. exact H.
Qed.

(* ===================================================================== *)
(** ** C1: uniqueness of participations *)
(* ===================================================================== *)

(** C1, as amended. In every state reachable from empty collections by
    list, get, create, delete, join and leave requests: no participation
    record is matched, under the handlers' strict comparison, by a record
    pushed after it; hence at most one record exists for each
    (userId, activityId) pair whose userId is a primitive value; and join
    either leaves the ledger as it is or appends its pair after finding
    that no stored record matches it. *)
Theorem C1_participation_unique_for_primitive_userId toLowerCase db :
  reachable toLowerCase db ->
  (forall i j p q,
      i < j -> participacoes db !! i = Some p -> participacoes db !! j = Some q ->
      mesma_participacao (Participacao.userId q) (Participacao.atividadeId q) p
      = false)
  /\ (forall i j p,
        participacoes db !! i = Some p -> participacoes db !! j = Some p ->
        primitive (Participacao.userId p) = true -> i = j)
  /\ (forall atividadeId body,
        participacoes (snd (post_atividades_id_join atividadeId body db))
          = participacoes db
        \/ ((forall p, In p (participacoes db) ->
               mesma_participacao (prop body "userId") atividadeId p = false)
            /\ participacoes (snd (post_atividades_id_join atividadeId body db))
               = participacoes db
                   ++ [Participacao.make (prop body "userId") atividadeId])).
Proof.
  intros Hr. destruct (reachable_ledger toLowerCase db Hr) as [Huniq Hwf].
  pose proof (sem_repeticao_lookup _ Huniq) as Hlk.
  split; [exact Hlk | split].
  - intros i j p Hi Hj Hprim.
    assert (Hp : bem_formada p).
    { apply (proj1 (List.Forall_forall _ _) Hwf).
      apply list_elem_of_In, list_elem_of_lookup. eauto. }
    destruct Hp as [Ht Ha].
    assert (Hself : mesma_participacao (Participacao.userId p)
                      (Participacao.atividadeId p) p = true).
    { unfold mesma_participacao. rewrite (strict_eq_refl _ Hprim Ht), Ha.
      reflexivity. }
    destruct (Nat.lt_trichotomy i j) as [Hlt | [Heq | Hgt]]; [| exact Heq |].
    + rewrite (Hlk i j p p Hlt Hi Hj) in Hself. discriminate.
    + rewrite (Hlk j i p p Hgt Hj Hi) in Hself. discriminate.
  - intros atividadeId body.
    destruct (join_participacoes atividadeId body db)
      as [H | (_ & _ & Hnew & H)]; [left; exact H | right; split; auto].
Qed.

(** C1 at a reachable state: one activity joined by user 42. *)
Lemma C1_witness :
  reachable toLowerCase_ascii db_participa
  /\ (forall i j p,
        participacoes db_participa !! i = Some p ->
        participacoes db_participa !! j = Some p ->
        primitive (Participacao.userId p) = true -> i = j).
Proof.
  assert (H : reachable toLowerCase_ascii db_participa)
    by apply reachable_run, reachable_vazio.
  split; [exact H |].
  exact (proj1 (proj2
           (C1_participation_unique_for_primitive_userId
              toLowerCase_ascii db_participa H))).
Defined.

(** C1 as stated does not hold: a body whose [userId] is an object passes
    the duplicate check every time, because a freshly parsed object is
    never [===] to a stored one. After one creation and two such joins the
    ledger holds the same pair twice. *)
Lemma C1_counterexample :
  reachable toLowerCase_ascii (run toLowerCase_ascii reqs_objeto db_vazio)
  /\ participacoes (run toLowerCase_ascii reqs_objeto db_vazio)
     = [Participacao.make (JObj ∅) n1; Participacao.make (JObj ∅) n1]
  /\ ~ um_registo_por_par (run toLowerCase_ascii reqs_objeto db_vazio).
Proof.
  assert (Hp : participacoes (run toLowerCase_ascii reqs_objeto db_vazio)
               = [Participacao.make (JObj ∅) n1; Participacao.make (JObj ∅) n1])
    by (vm_compute; reflexivity).
  split; [apply reachable_run, reachable_vazio | split; [exact Hp |]].
  intros H.
  specialize (H 0 1 (Participacao.make (JObj ∅) n1)).
  rewrite Hp in H. specialize (H eq_refl eq_refl). discriminate.
Qed.

(* ===================================================================== *)
(** ** C2: joining an activity that does not exist *)
(* ===================================================================== *)

(** C2, as amended. The first check of join is the presence of [userId]:
    a request whose [userId] is missing or falsy is answered 400 before
    the activity is looked up. For every join request with a truthy
    [userId] whose activity id matches no stored activity, the answer is
    404 with an [{erro}] body, whatever the ledger holds, and nothing is
    changed. *)
Theorem C2_join_unknown_activity atividadeId body db :
  (truthy (prop body "userId") = false ->
   post_atividades_id_join atividadeId body db
   = (Json 400 (erro "userId é obrigatório"), db))
  /\ (truthy (prop body "userId") = true ->
      (forall a, In a (atividades db) -> tem_id atividadeId a = false) ->
      post_atividades_id_join atividadeId body db
      = (Json 404 (erro "Atividade não encontrada"), db)).
Proof.
  unfold post_atividades_id_join. split; intros Ht.
  - rewrite Ht. reflexivity.
  - intros H. rewrite Ht. simpl.
    rewrite (proj2 (find_None_iff _ _) H). reflexivity.
Qed.

(** C2 at a concrete request: user 42 joins activity 2 when only
    activity 1 exists. *)
Lemma C2_witness :
  truthy (prop ({[ "userId" := JNum n42 ]} : obj) "userId") = true
  /\ (forall a, In a (atividades db_uma) -> tem_id n2 a = false)
  /\ post_atividades_id_join n2 {[ "userId" := JNum n42 ]} db_uma
     = (Json 404 (erro "Atividade não encontrada"), db_uma).
Proof.
  assert (Ht : truthy (prop ({[ "userId" := JNum n42 ]} : obj) "userId")
               = true)
    by (vm_compute; reflexivity).
  assert (H : forall a, In a (atividades db_uma) -> tem_id n2 a = false).
  { intros a Ha. vm_compute in Ha. destruct Ha as [<- | []].
    vm_compute. reflexivity. }
  split; [exact Ht | split; [exact H |]].
  exact (proj2 (C2_join_unknown_activity n2 {[ "userId" := JNum n42 ]} db_uma)
           Ht H).
Defined.

(** C2 as stated does not hold: with no activity at all and a body without
    [userId], join answers 400 for the missing [userId], not 404. *)
Lemma C2_counterexample :
  (forall a, In a (atividades db_vazio) -> tem_id n1 a = false)
  /\ fst (post_atividades_id_join n1 ∅ db_vazio)
     = Json 400 (erro "userId é obrigatório").
Proof. split; [intros a [] | reflexivity]. Qed.

(* ===================================================================== *)
(** ** C3 and C4: creation and the ids it hands out *)
(* ===================================================================== *)

Lemma spread_sem_id (body : obj) (v : jsval) :
  body !! "id" = None -> body ∪ {[ "id" := v ]} = <[ "id" := v ]> body.
Proof.
  intros H. apply map_eq. intros k. rewrite lookup_union, lookup_insert.
  destruct (decide ("id" = k)) as [<- | Hk].
  - rewrite H, lookup_singleton_eq. reflexivity.
  - rewrite lookup_singleton_ne by exact Hk.
    destruct (body !! k); reflexivity.
Qed.





(* ===================================================================== *)
(** ** C5: deletion *)
(* ===================================================================== *)

Lemma In_delete_iff {A} i (l : list A) x :
  In x (base.delete i l) <-> exists j, j <> i /\ l !! j = Some x.
Proof.
  rewrite <- list_elem_of_In, list_elem_of_lookup. split.
  - intros [k Hk]. destruct (Nat.lt_ge_cases k i) as [Hlt | Hge].
    + rewrite list_lookup_delete_lt in Hk by exact Hlt.
      exists k. split; [lia | exact Hk].
    + rewrite list_lookup_delete_ge in Hk by exact Hge.
      exists (S k). split; [lia | exact Hk].
  - intros (j & Hj & Hx). destruct (Nat.lt_ge_cases j i) as [Hlt | Hge].
    + exists j. rewrite list_lookup_delete_lt by exact Hlt. exact Hx.
    + destruct j as [|j]; [lia |]. exists j.
      rewrite list_lookup_delete_ge by lia. exact Hx.
Qed.

Lemma get_atividades_id_404 id userId db :
  fst (get_atividades_id id userId db)
    = Json 404 (erro "Atividade não encontrada")
  <-> (forall a, In a (atividades db) -> tem_id id a = false).
Proof.
  rewrite <- find_None_iff. unfold get_atividades_id.
  destruct (List.find _ _); simpl; split; try discriminate; reflexivity.
Qed.

(** C5, as amended. For every id, delete answers 404 with an [{erro}] body
    exactly when no stored activity has that id, and then changes nothing.
    Otherwise it removes exactly one record, the first whose id matches,
    and returns it; a get on the same id that follows answers 404 exactly
    when no other stored activity had that id. *)
Theorem C5_delete_removes_first_match id db :
  (fst (delete_atividades_id id db)
     = Json 404 (erro "Atividade não encontrada")
   <-> (forall a, In a (atividades db) -> tem_id id a = false))
  /\ ((forall a, In a (atividades db) -> tem_id id a = false) ->
      snd (delete_atividades_id id db) = db)
  /\ ((exists a, In a (atividades db) /\ tem_id id a = true) ->
      exists index a,
        atividades db !! index = Some a
        /\ tem_id id a = true
        /\ (forall j b, j < index -> atividades db !! j = Some b ->
              tem_id id b = false)
        /\ delete_atividades_id id db
           = (Json 200 (JObj {[ "mensagem" := JStr "Atividade removida";
                                "removida" := JArr [JObj a] ]}),
              mkDb (base.delete index (atividades db)) (participacoes db))
        /\ length (base.delete index (atividades db)) + 1
           = length (atividades db)
        /\ (forall userId,
              fst (get_atividades_id id userId
                     (snd (delete_atividades_id id db)))
                = Json 404 (erro "Atividade não encontrada")
              <-> (forall j b, j <> index -> atividades db !! j = Some b ->
                     tem_id id b = false))).
Proof.
  unfold delete_atividades_id.
  destruct (findIndex (tem_id id) (atividades db)) as [i|] eqn:Hi.
  - apply findIndex_Some in Hi as (x & Hx & Hfx & Hmin).
    assert (Hin : In x (atividades db))
      by (apply list_elem_of_In, list_elem_of_lookup; eauto).
    rewrite (splice1_lookup i _ x Hx). simpl.
    split; [| split].
    + split; [discriminate |]. intros H. rewrite (H x Hin) in Hfx.
      discriminate.
    + intros H. rewrite (H x Hin) in Hfx. discriminate.
    + intros _. exists i, x. repeat split; auto.
      * rewrite length_delete by eauto.
        apply lookup_lt_Some in Hx. lia.
      * intros H j b Hj Hb.
        apply (proj1 (get_atividades_id_404 _ _ _) H). simpl.
        apply In_delete_iff. eauto.
      * intros H. apply get_atividades_id_404. simpl. intros b Hb.
        apply In_delete_iff in Hb as (j & Hj & Hb). eauto.
  - pose proof (proj1 (findIndex_None _ _) Hi) as Hnone. simpl.
    split; [| split]; auto.
    + split; auto.
    + intros (a & Ha & Hfa). rewrite (Hnone a Ha) in Hfa. discriminate.
Qed.

(** C5 at a concrete request: deleting activity 1 when it is the only
    one. *)
Lemma C5_witness :
  (exists a, In a (atividades db_uma) /\ tem_id n1 a = true)
  /\ delete_atividades_id n1 db_uma
     = (Json 200 (JObj {[ "mensagem" := JStr "Atividade removida";
                          "removida" := JArr [JObj {[ "id" := JNum n1 ]}] ]}),
        db_vazio)
  /\ fst (get_atividades_id n1 None (snd (delete_atividades_id n1 db_uma)))
     = Json 404 (erro "Atividade não encontrada").
Proof.
  assert (H : exists a, In a (atividades db_uma) /\ tem_id n1 a = true).
  { exists {[ "id" := JNum n1 ]}. split; [left |]; vm_compute; reflexivity. }
  split; [exact H |].
  destruct (proj2 (proj2 (C5_delete_removes_first_match n1 db_uma)) H)
    as (index & a & Ha & _ & _ & Hdel & _ & Hget).
  destruct index as [|index]; [| discriminate Ha].
  injection Ha as <-. split; [exact Hdel |].
  apply Hget. intros [|j] b Hj Hb; [lia | discriminate Hb].
Defined.

(** C5 as stated does not hold: when two stored activities have id 2,
    delete removes the first of them and a get on id 2 that follows still
    finds the other. *)
Lemma C5_counterexample :
  reachable toLowerCase_ascii db_id_repetido
  /\ status_of (fst (delete_atividades_id n2 db_id_repetido)) = Some 200
  /\ fst (get_atividades_id n2 None
            (snd (delete_atividades_id n2 db_id_repetido)))
     = Json 200 (JObj {[ "id" := JNum n2; "nome" := JStr "C";
                         "participa" := JBool false ]}).
Proof.
  split; [| split; vm_compute; reflexivity].
  apply (reachable_step toLowerCase_ascii (Create {[ "nome" := JStr "C" ]})).
  apply reachable_run, reachable_vazio.
Qed.

(* ===================================================================== *)
(** ** C6: get after create *)
(* ===================================================================== *)

Lemma find_app_last {A} (f : A -> bool) l x :
  (forall y, In y l -> f y = false) -> f x = true ->
  List.find f (l ++ [x]) = Some x.
Proof.
  intros Hl Hx. induction l as [|y l IH]; simpl.
  - rewrite Hx. reflexivity.
  - rewrite (Hl y) by (left; reflexivity). apply IH.
    intros z Hz. apply Hl. right. exact Hz.
Qed.

(** C6, as amended. For every activity A returned by a create whose body
    has no [id] property, when no activity stored before has the id given
    to A, a get on that id right after the creation answers 200 with the
    properties of A together with the [participa] flag of the ledger
    query. *)
Theorem C6_get_after_create (body : obj) db userId :
  body !! "id" = None ->
  (forall a, In a (atividades db) ->
     tem_id (number_of_nat (length (atividades db) + 1)) a = false) ->
  exists A,
    fst (post_atividades body db) = Json 201 (JObj A)
    /\ prop A "id" = JNum (number_of_nat (length (atividades db) + 1))
    /\ fst (get_atividades_id (number_of_nat (length (atividades db) + 1))
              userId (snd (post_atividades body db)))
       = Json 200
           (JObj (<[ "participa" :=
                       JBool match userId with
                             | None => false
                             | Some u =>
                                 isParticipating u
                                   (number_of_nat (length (atividades db) + 1))
                                   db
                             end ]> A)).
Proof.
  intros Hid Hfresh.
  exists (<[ "id" := JNum (number_of_nat (length (atividades db) + 1)) ]> body).
  unfold post_atividades. rewrite (spread_sem_id _ _ Hid).
  assert (Hprop : prop (<[ "id" := JNum (number_of_nat
                                          (length (atividades db) + 1)) ]> body)
                    "id"
                  = JNum (number_of_nat (length (atividades db) + 1)))
    by (unfold prop; rewrite lookup_insert_eq; reflexivity).
  repeat split; [exact Hprop |].
  unfold get_atividades_id. simpl.
  rewrite (find_app_last _ _ _ Hfresh).
  - destruct userId; reflexivity.
  - unfold tem_id. rewrite Hprop. apply number_of_nat_eq_refl.
Qed.

(** C6 at a concrete request: the first activity is read back. *)
Lemma C6_witness :
  ({[ "nome" := JStr "Yoga" ]} : obj) !! "id" = None
  /\ (forall a, In a (atividades db_vazio) ->
        tem_id (number_of_nat (length (atividades db_vazio) + 1)) a = false)
  /\ exists A,
       fst (post_atividades {[ "nome" := JStr "Yoga" ]} db_vazio)
         = Json 201 (JObj A)
       /\ prop A "id" = JNum n1
       /\ fst (get_atividades_id n1 None
                 (snd (post_atividades {[ "nome" := JStr "Yoga" ]} db_vazio)))
          = Json 200 (JObj (<[ "participa" := JBool false ]> A)).
Proof.
  assert (H1 : ({[ "nome" := JStr "Yoga" ]} : obj) !! "id" = None)
    by reflexivity.
  assert (H2 : forall a, In a (atividades db_vazio) ->
                 tem_id (number_of_nat (length (atividades db_vazio) + 1)) a
                 = false)
    by (intros a []).
  split; [exact H1 | split; [exact H2 |]].
  exact (C6_get_after_create {[ "nome" := JStr "Yoga" ]} db_vazio None H1 H2).
Defined.

(** C6 as stated does not hold: after create, create, delete 1, the next
    creation returns an activity with id 2 and name C, and a get on id 2
    right after it answers with the older activity of id 2, named B. *)
Lemma C6_counterexample :
  reachable toLowerCase_ascii db_colisao
  /\ fst (post_atividades {[ "nome" := JStr "C" ]} db_colisao)
     = Json 201 (JObj {[ "id" := JNum n2; "nome" := JStr "C" ]})
  /\ fst (get_atividades_id n2 None
            (snd (post_atividades {[ "nome" := JStr "C" ]} db_colisao)))
     = Json 200 (JObj {[ "id" := JNum n2; "nome" := JStr "B";
                         "participa" := JBool false ]})
  /\ ({[ "id" := JNum n2; "nome" := JStr "B"; "participa" := JBool false ]}
        : obj) !! "nome"
     <> ({[ "id" := JNum n2; "nome" := JStr "C" ]} : obj) !! "nome".
Proof.
  split; [apply reachable_run, reachable_vazio |].
  split; [vm_compute; reflexivity |].
  split; [vm_compute; reflexivity |].
  vm_compute. discriminate.
Qed.

(* ===================================================================== *)
(** ** C7: leaving *)
(* ===================================================================== *)

(** Two numbers that are [===] are both zero or the same number. *)
Lemma num_eq_inv x y :
  num_eq x y = true ->
  (exists s s', x = S754_zero s /\ y = S754_zero s') \/ x = y.
Proof.
  unfold num_eq, SFeqb, SFcompare.
  destruct x as [s|s| |s m e], y as [s'|s'| |s' m' e']; try discriminate;
    try (destruct s; discriminate); try (destruct s'; discriminate).
  - intros _. left. eauto.
  - destruct s, s'; try discriminate; intros _; right; reflexivity.
  - destruct s, s'; try discriminate;
      destruct (Z.compare_spec e e') as [-> | |]; try discriminate;
      intros H; right; f_equal.
    + destruct (Pos.compare_cont Eq m m') eqn:Hm; try discriminate.
      apply Pos.compare_eq_iff. exact Hm.
    + destruct (Pos.compare_cont Eq m m') eqn:Hm; try discriminate.
      apply Pos.compare_eq_iff. exact Hm.
Qed.

Lemma num_eq_common x y z :
  num_eq x z = true -> num_eq y z = true -> num_eq x y = true.
Proof.
  intros Hx Hy.
  destruct (num_eq_inv x z Hx) as [(s & s' & Ex & Ez) | Ex];
    destruct (num_eq_inv y z Hy) as [(t & t' & Ey & Ez') | Ey]; subst;
    try reflexivity; exact Hx.
Qed.

(** Two records matched by the same numeric pair match each other. *)
Lemma mesma_participacao_common userId atividadeId p q :
  mesma_participacao (JNum userId) atividadeId p = true ->
  mesma_participacao (JNum userId) atividadeId q = true ->
  mesma_participacao (Participacao.userId q) (Participacao.atividadeId q) p
  = true.
Proof.
  unfold mesma_participacao. rewrite !andb_true_iff.
  intros [Hp1 Hp2] [Hq1 Hq2].
  apply strict_eq_num_inv in Hp1 as (m & -> & Hm).
  apply strict_eq_num_inv in Hq1 as (m' & -> & Hm').
  simpl. split; eapply num_eq_common; eauto.
Qed.

(** Once the first match is spliced out of a ledger without repetition,
    nothing matches the pair any more. *)
Lemma sem_repeticao_delete_first userId atividadeId l index :
  sem_repeticao l ->
  findIndex (mesma_participacao (JNum userId) atividadeId) l = Some index ->
  forall q, In q (base.delete index l) ->
    mesma_participacao (JNum userId) atividadeId q = false.
Proof.
  intros Hl Hi q Hq.
  apply findIndex_Some in Hi as (p & Hp & Hfp & Hmin).
  apply In_delete_iff in Hq as (j & Hj & Hq).
  destruct (Nat.lt_ge_cases j index) as [Hlt | Hge]; [eauto |].
  destruct (mesma_participacao (JNum userId) atividadeId q) eqn:Hfq;
    [| reflexivity].
  pose proof (mesma_participacao_common _ _ p q Hfp Hfq) as Hpq.
  rewrite (sem_repeticao_lookup l Hl index j p q) in Hpq by (auto; lia).
  discriminate.
Qed.

Lemma leave_404 userId atividadeId db :
  (forall p, In p (participacoes db) ->
     mesma_participacao (JNum userId) atividadeId p = false) ->
  delete_usuarios_atividades_leave userId atividadeId db
  = (Json 404 (erro "Usuário não participa desta atividade"), db).
Proof.
  intros H. unfold delete_usuarios_atividades_leave.
  rewrite (proj2 (findIndex_None _ _) H). reflexivity.
Qed.

(** C7. In every reachable state and for every (userId, activityId):
    leave removes nothing and answers 404 with an [{erro}] body when no
    stored pair matches; and when leave succeeds it has removed one
    matching pair, after which the pair is no longer participating and a
    second leave on it answers 404. *)
Theorem C7_leave_removes_the_pair toLowerCase db userId atividadeId :
  reachable toLowerCase db ->
  ((forall p, In p (participacoes db) ->
      mesma_participacao (JNum userId) atividadeId p = false) ->
   delete_usuarios_atividades_leave userId atividadeId db
   = (Json 404 (erro "Usuário não participa desta atividade"), db))
  /\ (status_of (fst (delete_usuarios_atividades_leave userId atividadeId db))
      = Some 200 ->
      exists index p,
        participacoes db !! index = Some p
        /\ mesma_participacao (JNum userId) atividadeId p = true
        /\ snd (delete_usuarios_atividades_leave userId atividadeId db)
           = mkDb (atividades db) (base.delete index (participacoes db))
        /\ isParticipating userId atividadeId
             (snd (delete_usuarios_atividades_leave userId atividadeId db))
           = false
        /\ delete_usuarios_atividades_leave userId atividadeId
             (snd (delete_usuarios_atividades_leave userId atividadeId db))
           = (Json 404 (erro "Usuário não participa desta atividade"),
              snd (delete_usuarios_atividades_leave userId atividadeId db))).
Proof.
  intros Hr. split; [apply leave_404 |].
  destruct (reachable_ledger toLowerCase db Hr) as [Huniq _].
  destruct (findIndex (mesma_participacao (JNum userId) atividadeId)
              (participacoes db)) as [index|] eqn:Hi.
  - destruct (proj1 (findIndex_Some _ _ _) Hi) as (p & Hp & Hfp & _).
    pose proof (sem_repeticao_delete_first userId atividadeId _ index
                  Huniq Hi) as Hgone.
    assert (Hleave : snd (delete_usuarios_atividades_leave userId atividadeId
                            db)
                     = mkDb (atividades db)
                         (base.delete index (participacoes db))).
    { unfold delete_usuarios_atividades_leave. rewrite Hi.
      rewrite (splice1_lookup index _ p Hp). reflexivity. }
    intros _. exists index, p. rewrite Hleave. repeat split; auto.
    + apply existsb_false_iff. exact Hgone.
    + apply leave_404. exact Hgone.
  - unfold delete_usuarios_atividades_leave. rewrite Hi. discriminate.
Qed.

(** C7 at a reachable state: user 42 leaves activity 1 after joining it. *)
Lemma C7_witness :
  reachable toLowerCase_ascii db_participa
  /\ status_of (fst (delete_usuarios_atividades_leave n42 n1 db_participa))
     = Some 200
  /\ isParticipating n42 n1
       (snd (delete_usuarios_atividades_leave n42 n1 db_participa)) = false
  /\ fst (delete_usuarios_atividades_leave n42 n1
            (snd (delete_usuarios_atividades_leave n42 n1 db_participa)))
     = Json 404 (erro "Usuário não participa desta atividade").
Proof.
  assert (H1 : reachable toLowerCase_ascii db_participa)
    by apply reachable_run, reachable_vazio.
  assert (H2 : status_of
                 (fst (delete_usuarios_atividades_leave n42 n1 db_participa))
               = Some 200)
    by (vm_compute; reflexivity).
  split; [exact H1 | split; [exact H2 |]].
  destruct (proj2 (C7_leave_removes_the_pair toLowerCase_ascii db_participa
                     n42 n1 H1) H2)
    as (index & p & _ & _ & _ & Hpart & Hagain).
  split; [exact Hpart |]. rewrite Hagain. reflexivity.
Defined.

(* ===================================================================== *)
(** ** C8: listing *)
(* ===================================================================== *)

Lemma filter_throwing_strings toLowerCase x l :
  (forall a, In a l -> exists s, prop a "criador" = JStr s) ->
  filter_throwing (mesmo_criador toLowerCase (JStr x)) l
  = inr (List.filter (criador_igual toLowerCase x) l).
Proof.
  induction l as [|a l IH]; intros H; simpl; [reflexivity |].
  destruct (H a) as [s Hs]; [left; reflexivity |].
  unfold mesmo_criador at 1, criador_igual at 1. rewrite Hs. simpl.
  rewrite IH by (intros b Hb; apply H; right; exact Hb).
  destruct (String.eqb _ _); reflexivity.
Qed.

(** C8, as amended. With no filter, or with an empty one, list answers
    with every stored activity in insertion order. With a filter that is a
    non-empty string X, on a store whose activities all have a string as
    creator name, list answers with exactly the stored activities whose
    creator name equals X once both are lowered, in insertion order (none
    when nothing matches). In both cases no error is signalled and nothing
    is changed. *)
Theorem C8_list_filters_by_creator toLowerCase db :
  (forall criador,
      truthy criador = false ->
      get_atividades toLowerCase criador db
      = (Json 200 (JArr (JObj <$> atividades db)), db))
  /\ (forall x,
        x <> "" ->
        (forall a, In a (atividades db) -> exists s, prop a "criador" = JStr s) ->
        get_atividades toLowerCase (JStr x) db
        = (Json 200
             (JArr (JObj <$> List.filter (criador_igual toLowerCase x)
                               (atividades db))),
           db)
        /\ (forall a,
              In a (List.filter (criador_igual toLowerCase x) (atividades db))
              <-> In a (atividades db)
                  /\ exists s, prop a "criador" = JStr s
                               /\ toLowerCase s = toLowerCase x)).
Proof.
  split.
  - intros criador H. unfold get_atividades. rewrite H. reflexivity.
  - intros x Hx Hstr. split.
    + unfold get_atividades. simpl.
      destruct (String.eqb_spec x "") as [-> | _]; [congruence |]. simpl.
      rewrite (filter_throwing_strings _ _ _ Hstr). reflexivity.
    + intros a. rewrite filter_In. unfold criador_igual.
      split; intros [Ha H]; (split; [exact Ha |]).
      * destruct (prop a "criador"); try discriminate.
        eexists. split; [reflexivity |]. apply String.eqb_eq. exact H.
      * destruct H as (s & -> & H). apply String.eqb_eq. exact H.
Qed.

(** C8 at a concrete request: of the creators Ana, Bia and ANA, the
    filter [ana] keeps the first and the third. *)
Lemma C8_witness :
  "ana" <> ""
  /\ (forall a, In a (atividades db_criadores) ->
        exists s, prop a "criador" = JStr s)
  /\ get_atividades toLowerCase_ascii (JStr "ana") db_criadores
     = (Json 200
          (JArr [JObj {[ "id" := JNum n1; "nome" := JStr "Yoga";
                         "criador" := JStr "Ana" ]};
                 JObj {[ "id" := JNum (number_of_nat 3);
                         "nome" := JStr "Corrida";
                         "criador" := JStr "ANA" ]}]),
        db_criadores).
Proof.
  assert (H1 : "ana" <> "") by discriminate.
  assert (H2 : forall a, In a (atividades db_criadores) ->
                 exists s, prop a "criador" = JStr s).
  { intros a Ha. vm_compute in Ha.
    destruct Ha as [<- | [<- | [<- | []]]]; eexists; vm_compute; reflexivity. }
  split; [exact H1 | split; [exact H2 |]].
  rewrite (proj1 (proj2 (C8_list_filters_by_creator toLowerCase_ascii
                           db_criadores) "ana" H1 H2)).
  vm_compute. reflexivity.
Defined.

(** C8 as stated does not hold. An activity can be created without a
    creator name, and on such a store a list with a filter throws a
    [TypeError] when it lowers the missing name. And an empty filter is
    treated as no filter: every activity is returned although none has the
    empty creator name. *)
Lemma C8_counterexample :
  reachable toLowerCase_ascii db_uma
  /\ get_atividades toLowerCase_ascii (JStr "ana") db_uma
     = (Throws TypeError, db_uma)
  /\ fst (get_atividades toLowerCase_ascii (JStr "") db_criadores)
     = Json 200 (JArr (JObj <$> atividades db_criadores))
  /\ List.filter (criador_igual toLowerCase_ascii "") (atividades db_criadores)
     = [].
Proof.
  split; [apply reachable_run, reachable_vazio |].
  repeat split; vm_compute; reflexivity.
Qed.

(* ===================================================================== *)
(** ** C9: each handler changes its own collection only *)
(* ===================================================================== *)

(** C9. Delete-by-id never changes the participation collection, so the
    participations that refer to the deleted activity stay as they are;
    join and leave never change the activity collection; create changes
    the activity collection only, and list and get change nothing. *)
Theorem C9_handlers_keep_the_other_collection toLowerCase db :
  (forall id,
      participacoes (snd (delete_atividades_id id db)) = participacoes db)
  /\ (forall atividadeId body,
        atividades (snd (post_atividades_id_join atividadeId body db))
        = atividades db)
  /\ (forall userId atividadeId,
        atividades (snd (delete_usuarios_atividades_leave userId atividadeId db))
        = atividades db)
  /\ (forall body,
        participacoes (snd (post_atividades body db)) = participacoes db)
  /\ (forall criador, snd (get_atividades toLowerCase criador db) = db)
  /\ (forall atividadeId userId,
        snd (get_atividades_id atividadeId userId db) = db).
Proof.
  split; [| split; [| split; [| split; [| split]]]].
  - intros id. apply delete_atividades_id_participacoes.
  - intros atividadeId body. unfold post_atividades_id_join.
    destruct (negb _); [reflexivity |].
    destruct (List.find (tem_id _) _); [| reflexivity].
    destruct (List.find _ _); reflexivity.
  - intros userId atividadeId. unfold delete_usuarios_atividades_leave.
    destruct (findIndex _ _); reflexivity.
  - intros body. reflexivity.
  - intros criador. apply get_atividades_db.
  - intros atividadeId userId. apply get_atividades_id_db.
Qed.

(* ===================================================================== *)
(** ** C10: a [userId] stored as a string *)
(* ===================================================================== *)

Lemma join_200 atividadeId body db :
  status_of (fst (post_atividades_id_join atividadeId body db)) = Some 200 ->
  participacoes (snd (post_atividades_id_join atividadeId body db))
  = participacoes db ++ [Participacao.make (prop body "userId") atividadeId].
Proof.
  unfold post_atividades_id_join.
  destruct (negb _); [discriminate |].
  destruct (List.find (tem_id _) _); [| discriminate].
  destruct (List.find _ _); [discriminate | reflexivity].
Qed.

Lemma userId_string_no_match userId atividadeId p :
  userId_string p = true ->
  mesma_participacao (JNum userId) atividadeId p = false.
Proof.
  unfold userId_string, mesma_participacao.
  destruct (Participacao.userId p); try discriminate. reflexivity.
Qed.

(** C10, as amended. Join stores the [userId] of the body as it is, while
    leave and the participation check compare the stored value strictly
    with a number. Hence a participation whose [userId] was stored as a
    string is matched by no numeric [userId] and stays in the ledger after
    every leave; and whenever no record with a non-string [userId] matches
    the numeric pair, leave answers 404 and the participation check
    reports false. *)
Theorem C10_string_userId_is_never_matched db :
  (forall atividadeId body,
      status_of (fst (post_atividades_id_join atividadeId body db)) = Some 200 ->
      participacoes (snd (post_atividades_id_join atividadeId body db))
      = participacoes db ++ [Participacao.make (prop body "userId") atividadeId])
  /\ (forall p userId atividadeId,
        In p (participacoes db) -> userId_string p = true ->
        mesma_participacao (JNum userId) atividadeId p = false
        /\ In p (participacoes
                   (snd (delete_usuarios_atividades_leave userId atividadeId
                           db))))
  /\ (forall userId atividadeId,
        (forall p, In p (participacoes db) -> userId_string p = false ->
           mesma_participacao (JNum userId) atividadeId p = false) ->
        delete_usuarios_atividades_leave userId atividadeId db
        = (Json 404 (erro "Usuário não participa desta atividade"), db)
        /\ isParticipating userId atividadeId db = false).
Proof.
  split; [| split].
  - intros atividadeId body. apply join_200.
  - intros p userId atividadeId Hp Hs.
    pose proof (userId_string_no_match userId atividadeId p Hs) as Hno.
    split; [exact Hno |].
    rewrite leave_participacoes.
    destruct (findIndex _ _) as [index|] eqn:Hi; [| exact Hp].
    apply findIndex_Some in Hi as (q & Hq & Hfq & _).
    apply In_delete_iff.
    apply list_elem_of_In, list_elem_of_lookup in Hp as [j Hj].
    exists j. split; [| exact Hj]. intros ->. congruence.
  - intros userId atividadeId H.
    assert (Hall : forall p, In p (participacoes db) ->
                     mesma_participacao (JNum userId) atividadeId p = false).
    { intros p Hp. destruct (userId_string p) eqn:Hs; [| auto].
      apply userId_string_no_match. exact Hs. }
    split; [apply leave_404 | apply existsb_false_iff]; exact Hall.
Qed.

(** C10 at a reachable state: activity 1 was joined with the string
    ["42"], and user 42 cannot leave it. *)
Lemma C10_witness :
  (forall p, In p (participacoes db_string) -> userId_string p = false ->
     mesma_participacao (JNum n42) n1 p = false)
  /\ participacoes db_string = [Participacao.make (JStr "42") n1]
  /\ delete_usuarios_atividades_leave n42 n1 db_string
     = (Json 404 (erro "Usuário não participa desta atividade"), db_string)
  /\ isParticipating n42 n1 db_string = false.
Proof.
  assert (H : forall p, In p (participacoes db_string) ->
                userId_string p = false ->
                mesma_participacao (JNum n42) n1 p = false).
  { intros p Hp. vm_compute in Hp. destruct Hp as [<- | []]. discriminate. }
  split; [exact H | split; [vm_compute; reflexivity |]].
  exact (proj2 (proj2 (C10_string_userId_is_never_matched db_string))
           n42 n1 H).
Defined.

(** C10 as stated does not hold: activity 1 is joined with the string
    ["42"] and then with the number 42, both joins succeed, and the leave
    of user 42 that follows succeeds as well, since it finds the numeric
    record. The participation check for user 42 reports true. *)
Lemma C10_counterexample :
  reachable toLowerCase_ascii db_string_e_numero
  /\ participacoes db_string_e_numero
     = [Participacao.make (JStr "42") n1; Participacao.make (JNum n42) n1]
  /\ status_of (fst (delete_usuarios_atividades_leave n42 n1
                       db_string_e_numero)) = Some 200
  /\ isParticipating n42 n1 db_string_e_numero = true.
Proof.
  split; [apply reachable_run, reachable_vazio |].
  repeat split; vm_compute; reflexivity.
Qed.

(* ===================================================================== *)
(** ** The scenario of the specification, run on the handlers *)
(* ===================================================================== *)

(** Create Yoga (id 1); user 42 joins, joins again (refused), leaves; the
    get that follows reports [participa: false]. *)
Example scenario_yoga :
  let yoga : obj := {[ "nome" := JStr "Yoga"; "criador" := JStr "Ana" ]} in
  let entra : obj := {[ "userId" := JNum n42 ]} in
  let db1 := snd (post_atividades yoga db_vazio) in
  let db2 := snd (post_atividades_id_join n1 entra db1) in
  let db3 := snd (post_atividades_id_join n1 entra db2) in
  let db4 := snd (delete_usuarios_atividades_leave n42 n1 db3) in
  fst (post_atividades yoga db_vazio)
    = Json 201 (JObj (<[ "id" := JNum n1 ]> yoga))
  /\ status_of (fst (post_atividades_id_join n1 entra db1)) = Some 200
  /\ isParticipating n42 n1 db2 = true
  /\ fst (post_atividades_id_join n1 entra db2)
     = Json 400 (erro "Usuário já participa desta atividade")
  /\ isParticipating n42 n1 db3 = true
  /\ status_of (fst (delete_usuarios_atividades_leave n42 n1 db3)) = Some 200
  /\ fst (get_atividades_id n1 (Some n42) db4)
     = Json 200 (JObj (<[ "participa" := JBool false ]>
                         (<[ "id" := JNum n1 ]> yoga))).
Proof. repeat split; vm_compute; reflexivity. Qed.

(* ===================================================================== *)
(** ** Further properties of join and leave *)
(* ===================================================================== *)

Lemma find_is_Some {A} (f : A -> bool) l :
  (exists x, In x l /\ f x = true) ->
  exists y, List.find f l = Some y /\ In y l /\ f y = true.
Proof.
  intros (x & Hx & Hfx). destruct (List.find f l) as [y|] eqn:Hy.
  - exists y. split; [reflexivity |]. apply (find_some _ _ Hy).
  - rewrite (find_none _ _ Hy x Hx) in Hfx. discriminate.
Qed.

Lemma findIndex_app_last {A} (f : A -> bool) l x :
  (forall y, In y l -> f y = false) -> f x = true ->
  findIndex f (l ++ [x]) = Some (length l).
Proof.
  intros Hl Hx. induction l as [|y l IH]; simpl.
  - rewrite Hx. reflexivity.
  - rewrite (Hl y) by (left; reflexivity).
    rewrite IH by (intros z Hz; apply Hl; right; exact Hz). reflexivity.
Qed.

(** What a join answered 200 has found and done. *)
Lemma join_200_inv atividadeId body db :
  status_of (fst (post_atividades_id_join atividadeId body db)) = Some 200 ->
  truthy (prop body "userId") = true
  /\ (exists a, In a (atividades db) /\ tem_id atividadeId a = true)
  /\ (forall p, In p (participacoes db) ->
        mesma_participacao (prop body "userId") atividadeId p = false)
  /\ snd (post_atividades_id_join atividadeId body db)
     = mkDb (atividades db)
         (participacoes db
            ++ [Participacao.make (prop body "userId") atividadeId]).
Proof.
  unfold post_atividades_id_join.
  destruct (truthy (prop body "userId")) eqn:Ht; simpl; [| discriminate].
  destruct (List.find (tem_id _) _) as [a|] eqn:Ha; [| discriminate].
  destruct (List.find (mesma_participacao _ _) _) eqn:Hp; [discriminate |].
  intros _. repeat split.
  - exists a. apply (find_some _ _ Ha).
  - apply find_none. exact Hp.
Qed.

Lemma join_200_intro atividadeId body db :
  truthy (prop body "userId") = true ->
  (exists a, In a (atividades db) /\ tem_id atividadeId a = true) ->
  (forall p, In p (participacoes db) ->
     mesma_participacao (prop body "userId") atividadeId p = false) ->
  status_of (fst (post_atividades_id_join atividadeId body db)) = Some 200.
Proof.
  intros Ht Ha Hp. unfold post_atividades_id_join. rewrite Ht. simpl.
  destruct (find_is_Some _ _ Ha) as (a & -> & _).
  rewrite (proj2 (find_None_iff _ _) Hp). reflexivity.
Qed.

(** X1. Join answers 200 exactly when the body carries a truthy [userId],
    some stored activity has the id of the request, and no stored
    participation matches the pair. *)
Theorem join_answers_200_iff atividadeId body db :
  status_of (fst (post_atividades_id_join atividadeId body db)) = Some 200
  <-> truthy (prop body "userId") = true
      /\ (exists a, In a (atividades db) /\ tem_id atividadeId a = true)
      /\ (forall p, In p (participacoes db) ->
            mesma_participacao (prop body "userId") atividadeId p = false).
Proof.
  split.
  - intros H. destruct (join_200_inv _ _ _ H) as (Ht & Ha & Hp & _). auto.
  - intros (Ht & Ha & Hp). apply join_200_intro; assumption.
Qed.

(** X2. A join that succeeded with a primitive [userId] is refused when it
    is repeated: the answer is 400 and nothing is changed. *)
Theorem join_twice_is_refused atividadeId body db :
  primitive (prop body "userId") = true ->
  status_of (fst (post_atividades_id_join atividadeId body db)) = Some 200 ->
  post_atividades_id_join atividadeId body
    (snd (post_atividades_id_join atividadeId body db))
  = (Json 400 (erro "Usuário já participa desta atividade"),
     snd (post_atividades_id_join atividadeId body db)).
Proof.
  intros Hprim H.
  destruct (join_200_inv _ _ _ H) as (Ht & (a & Ha & Hfa) & _ & ->).
  unfold post_atividades_id_join. rewrite Ht. simpl.
  destruct (find_is_Some (tem_id atividadeId) (atividades db))
    as (a' & -> & _); [eauto |].
  destruct (find_is_Some (mesma_participacao (prop body "userId") atividadeId)
              (participacoes db
                 ++ [Participacao.make (prop body "userId") atividadeId]))
    as (p & -> & _); [| reflexivity].
  exists (Participacao.make (prop body "userId") atividadeId). split.
  - apply in_or_app. right. left. reflexivity.
  - unfold mesma_participacao. simpl.
    rewrite (strict_eq_refl _ Hprim Ht), (tem_id_not_nan _ _ Hfa).
    reflexivity.
Qed.

(** X2 at a concrete request: user 42 joins activity 1 twice. *)
Lemma join_twice_is_refused_witness :
  primitive (prop ({[ "userId" := JNum n42 ]} : obj) "userId") = true
  /\ status_of (fst (post_atividades_id_join n1 {[ "userId" := JNum n42 ]}
                       db_uma)) = Some 200
  /\ fst (post_atividades_id_join n1 {[ "userId" := JNum n42 ]}
            (snd (post_atividades_id_join n1 {[ "userId" := JNum n42 ]}
                    db_uma)))
     = Json 400 (erro "Usuário já participa desta atividade").
Proof.
  assert (H1 : primitive (prop ({[ "userId" := JNum n42 ]} : obj) "userId")
               = true) by (vm_compute; reflexivity).
  assert (H2 : status_of
                 (fst (post_atividades_id_join n1 {[ "userId" := JNum n42 ]}
                         db_uma)) = Some 200) by (vm_compute; reflexivity).
  split; [exact H1 | split; [exact H2 |]].
  rewrite (join_twice_is_refused n1 {[ "userId" := JNum n42 ]} db_uma H1 H2).
  reflexivity.
Defined.

(** X3. After a join that succeeded with a numeric [userId], the ledger
    query for that user and activity is true and a get with that [userId]
    answers 200 with [participa: true]. *)
Theorem join_then_participating atividadeId userId body db :
  prop body "userId" = JNum userId ->
  status_of (fst (post_atividades_id_join atividadeId body db)) = Some 200 ->
  isParticipating userId atividadeId
    (snd (post_atividades_id_join atividadeId body db)) = true
  /\ exists atividade,
       In atividade (atividades db)
       /\ fst (get_atividades_id atividadeId (Some userId)
                 (snd (post_atividades_id_join atividadeId body db)))
          = Json 200 (JObj (<[ "participa" := JBool true ]> atividade)).
Proof.
  intros Hu H.
  destruct (join_200_inv _ _ _ H) as (Ht & (a & Ha & Hfa) & _ & ->).
  rewrite Hu in *.
  assert (Hpart : isParticipating userId atividadeId
                    (mkDb (atividades db)
                       (participacoes db
                          ++ [Participacao.make (JNum userId) atividadeId]))
                  = true).
  { assert (Hself : num_eq userId userId = true)
      by exact (strict_eq_refl (JNum userId) eq_refl Ht).
    unfold isParticipating. simpl. rewrite existsb_app. simpl.
    unfold mesma_participacao at 2. simpl.
    rewrite Hself, (tem_id_not_nan _ _ Hfa). simpl. apply orb_true_r. }
  split; [exact Hpart |].
  unfold get_atividades_id. simpl.
  destruct (find_is_Some (tem_id atividadeId) (atividades db))
    as (a' & -> & Ha' & _); [eauto |].
  exists a'. split; [exact Ha' |]. rewrite Hpart. reflexivity.
Qed.

(** X3 at a concrete request: user 42 joins activity 1. *)
Lemma join_then_participating_witness :
  prop ({[ "userId" := JNum n42 ]} : obj) "userId" = JNum n42
  /\ status_of (fst (post_atividades_id_join n1 {[ "userId" := JNum n42 ]}
                       db_uma)) = Some 200
  /\ isParticipating n42 n1
       (snd (post_atividades_id_join n1 {[ "userId" := JNum n42 ]} db_uma))
     = true.
Proof.
  assert (H1 : prop ({[ "userId" := JNum n42 ]} : obj) "userId" = JNum n42)
    by reflexivity.
  assert (H2 : status_of
                 (fst (post_atividades_id_join n1 {[ "userId" := JNum n42 ]}
                         db_uma)) = Some 200) by (vm_compute; reflexivity).
  split; [exact H1 | split; [exact H2 |]].
  exact (proj1 (join_then_participating n1 n42 {[ "userId" := JNum n42 ]}
                  db_uma H1 H2)).
Defined.

(** X4. Leave undoes join: after a join that succeeded with a numeric
    [userId], the leave of that user from that activity answers 200 and
    puts both collections back as they were before the join. *)
Theorem leave_undoes_join atividadeId userId body db :
  prop body "userId" = JNum userId ->
  status_of (fst (post_atividades_id_join atividadeId body db)) = Some 200 ->
  status_of (fst (delete_usuarios_atividades_leave userId atividadeId
                    (snd (post_atividades_id_join atividadeId body db))))
  = Some 200
  /\ snd (delete_usuarios_atividades_leave userId atividadeId
            (snd (post_atividades_id_join atividadeId body db)))
     = db.
Proof.
  intros Hu H.
  destruct (join_200_inv _ _ _ H) as (Ht & (a & Ha & Hfa) & Hnone & ->).
  rewrite Hu in *. unfold delete_usuarios_atividades_leave.
  cbn [participacoes atividades].
  rewrite (findIndex_app_last _ _ _ Hnone).
  - split; [reflexivity |].
    rewrite (splice1_lookup (length (participacoes db)) _
               (Participacao.make (JNum userId) atividadeId))
      by (apply list_lookup_middle; reflexivity).
    cbn [snd]. rewrite delete_middle, app_nil_r.
    destruct db; reflexivity.
  - assert (Hself : num_eq userId userId = true)
      by exact (strict_eq_refl (JNum userId) eq_refl Ht).
    unfold mesma_participacao. simpl.
    rewrite Hself, (tem_id_not_nan _ _ Hfa). reflexivity.
Qed.

(** X4 at a concrete request: user 42 joins activity 1 and leaves it. *)
Lemma leave_undoes_join_witness :
  prop ({[ "userId" := JNum n42 ]} : obj) "userId" = JNum n42
  /\ status_of (fst (post_atividades_id_join n1 {[ "userId" := JNum n42 ]}
                       db_uma)) = Some 200
  /\ snd (delete_usuarios_atividades_leave n42 n1
            (snd (post_atividades_id_join n1 {[ "userId" := JNum n42 ]}
                    db_uma)))
     = db_uma.
Proof.
  assert (H1 : prop ({[ "userId" := JNum n42 ]} : obj) "userId" = JNum n42)
    by reflexivity.
  assert (H2 : status_of
                 (fst (post_atividades_id_join n1 {[ "userId" := JNum n42 ]}
                         db_uma)) = Some 200) by (vm_compute; reflexivity).
  split; [exact H1 | split; [exact H2 |]].
  exact (proj2 (leave_undoes_join n1 n42 {[ "userId" := JNum n42 ]}
                  db_uma H1 H2)).
Defined.

Lemma existsb_findIndex {A} (f : A -> bool) l :
  existsb f l = true -> exists i, findIndex f l = Some i.
Proof.
  intros H. destruct (findIndex f l) as [i|] eqn:Hi; [eauto |].
  rewrite (proj2 (existsb_false_iff f l) (proj1 (findIndex_None f l) Hi)) in H.
  discriminate.
Qed.

Lemma leave_200_inv userId atividadeId db :
  status_of (fst (delete_usuarios_atividades_leave userId atividadeId db))
  = Some 200 ->
  exists index p,
    findIndex (mesma_participacao (JNum userId) atividadeId)
      (participacoes db) = Some index
    /\ participacoes db !! index = Some p
    /\ mesma_participacao (JNum userId) atividadeId p = true
    /\ snd (delete_usuarios_atividades_leave userId atividadeId db)
       = mkDb (atividades db) (base.delete index (participacoes db)).
Proof.
  unfold delete_usuarios_atividades_leave.
  destruct (findIndex _ _) as [index|] eqn:Hi; [| discriminate].
  intros _. destruct (proj1 (findIndex_Some _ _ _) Hi) as (p & Hp & Hfp & _).
  exists index, p. rewrite (splice1_lookup index _ p Hp). auto.
Qed.

(** X5. In every reachable state, a user who has just left an activity
    that is still stored can join it again: the join with that numeric
    [userId] answers 200. *)
Theorem join_again_after_leave toLowerCase db userId atividadeId body :
  reachable toLowerCase db ->
  status_of (fst (delete_usuarios_atividades_leave userId atividadeId db))
  = Some 200 ->
  (exists a, In a (atividades db) /\ tem_id atividadeId a = true) ->
  prop body "userId" = JNum userId ->
  status_of
    (fst (post_atividades_id_join atividadeId body
            (snd (delete_usuarios_atividades_leave userId atividadeId db))))
  = Some 200.
Proof.
  intros Hr Hleave Ha Hu.
  destruct (reachable_ledger toLowerCase db Hr) as [Huniq Hwf].
  destruct (leave_200_inv _ _ _ Hleave) as (index & p & Hi & Hp & Hfp & ->).
  apply join_200_intro; rewrite ?Hu; simpl; [| exact Ha |].
  - assert (Hbf : bem_formada p).
    { apply (proj1 (List.Forall_forall _ _) Hwf).
      apply list_elem_of_In, list_elem_of_lookup. eauto. }
    destruct Hbf as [Ht _]. unfold mesma_participacao in Hfp.
    apply andb_true_iff in Hfp as [Hfp _].
    apply strict_eq_num_inv in Hfp as (m & Hm & Hmu). rewrite Hm in Ht.
    destruct (num_eq_inv m userId Hmu) as [(s & s' & -> & _) | <-];
      [discriminate Ht | exact Ht].
  - apply (sem_repeticao_delete_first userId atividadeId _ index Huniq Hi).
Qed.

(** X5 at a reachable state: user 42 leaves activity 1 and joins again. *)
Lemma join_again_after_leave_witness :
  reachable toLowerCase_ascii db_participa
  /\ status_of (fst (delete_usuarios_atividades_leave n42 n1 db_participa))
     = Some 200
  /\ (exists a, In a (atividades db_participa) /\ tem_id n1 a = true)
  /\ prop ({[ "userId" := JNum n42 ]} : obj) "userId" = JNum n42
  /\ status_of
       (fst (post_atividades_id_join n1 {[ "userId" := JNum n42 ]}
               (snd (delete_usuarios_atividades_leave n42 n1 db_participa))))
     = Some 200.
Proof.
  assert (H1 : reachable toLowerCase_ascii db_participa)
    by apply reachable_run, reachable_vazio.
  assert (H2 : status_of
                 (fst (delete_usuarios_atividades_leave n42 n1 db_participa))
               = Some 200) by (vm_compute; reflexivity).
  assert (H3 : exists a, In a (atividades db_participa) /\ tem_id n1 a = true).
  { exists {[ "id" := JNum n1 ]}. split; [left |]; vm_compute; reflexivity. }
  assert (H4 : prop ({[ "userId" := JNum n42 ]} : obj) "userId" = JNum n42)
    by reflexivity.
  split; [exact H1 | split; [exact H2 | split; [exact H3 | split;
    [exact H4 |]]]].
  exact (join_again_after_leave toLowerCase_ascii db_participa n42 n1
           {[ "userId" := JNum n42 ]} H1 H2 H3 H4).
Defined.

(** X6. A participation outlives its activity: when a user participates
    in an activity and the activity is deleted, the ledger query stays
    true and the user's leave still answers 200. *)
Theorem participation_survives_delete id userId db :
  isParticipating userId id db = true ->
  isParticipating userId id (snd (delete_atividades_id id db)) = true
  /\ status_of
       (fst (delete_usuarios_atividades_leave userId id
               (snd (delete_atividades_id id db))))
     = Some 200.
Proof.
  intros H. unfold isParticipating, delete_usuarios_atividades_leave.
  rewrite delete_atividades_id_participacoes.
  split; [exact H |].
  destruct (existsb_findIndex _ _ H) as [i ->]. reflexivity.
Qed.

(** X6 at a concrete state: activity 1, joined by user 42, is deleted. *)
Lemma participation_survives_delete_witness :
  isParticipating n42 n1 db_participa = true
  /\ status_of (fst (delete_atividades_id n1 db_participa)) = Some 200
  /\ isParticipating n42 n1 (snd (delete_atividades_id n1 db_participa))
     = true
  /\ status_of
       (fst (delete_usuarios_atividades_leave n42 n1
               (snd (delete_atividades_id n1 db_participa))))
     = Some 200.
Proof.
  assert (H : isParticipating n42 n1 db_participa = true)
    by (vm_compute; reflexivity).
  split; [exact H | split; [vm_compute; reflexivity |]].
  exact (participation_survives_delete n1 n42 db_participa H).
Defined.

(** X7. In every reachable state each stored participation has a truthy
    [userId] and an activity id that is not [NaN]: join never stores a
    missing, null, false, zero or empty [userId]. *)
Theorem stored_participations_are_well_formed toLowerCase db p :
  reachable toLowerCase db ->
  In p (participacoes db) ->
  truthy (Participacao.userId p) = true
  /\ Participacao.atividadeId p <> S754_nan.
Proof.
  intros Hr Hp. destruct (reachable_ledger toLowerCase db Hr) as [_ Hwf].
  destruct (proj1 (List.Forall_forall _ _) Hwf p Hp) as [Ht Ha].
  split; [exact Ht |]. intros E. rewrite E in Ha. discriminate.
Qed.

(** X7 at a reachable state: the record of user 42 in activity 1. *)
Lemma stored_participations_are_well_formed_witness :
  reachable toLowerCase_ascii db_participa
  /\ In (Participacao.make (JNum n42) n1) (participacoes db_participa)
  /\ truthy (JNum n42) = true /\ n1 <> S754_nan.
Proof.
  assert (H1 : reachable toLowerCase_ascii db_participa)
    by apply reachable_run, reachable_vazio.
  assert (H2 : In (Participacao.make (JNum n42) n1)
                 (participacoes db_participa))
    by (left; vm_compute; reflexivity).
  split; [exact H1 | split; [exact H2 |]].
  exact (stored_participations_are_well_formed toLowerCase_ascii db_participa
           (Participacao.make (JNum n42) n1) H1 H2).
Defined.

(* ===================================================================== *)
(** ** Further properties of the activity store *)
(* ===================================================================== *)

Lemma filter_throwing_inl {A} (f : A -> exn + bool) l :
  (exists e, filter_throwing f l = inl e)
  <-> exists x, In x l /\ exists e, f x = inl e.
Proof.
  induction l as [|x l IH]; simpl.
  - split; [intros [e He]; discriminate | intros (x & [] & _)].
  - destruct (f x) as [e|b] eqn:Hx.
    + split; [intros _; exists x; eauto | eauto].
    + destruct (filter_throwing f l) as [e|r].
      * split; [| eauto]. intros _.
        destruct (proj1 IH (ex_intro _ e eq_refl)) as (y & Hy & He).
        exists y. auto.
      * split; [intros [e He]; discriminate |].
        intros (y & [<- | Hy] & e & He); [congruence |].
        destruct (proj2 IH) as [e' He']; [eauto | discriminate].
Qed.

Lemma mesmo_criador_inl toLowerCase criador a :
  (exists e, mesmo_criador toLowerCase criador a = inl e)
  <-> (forall s, prop a "criador" <> JStr s) \/ (forall s, criador <> JStr s).
Proof.
  unfold mesmo_criador, call_toLowerCase. split.
  - intros [e He].
    destruct (prop a "criador") as [| | | |s| |];
      try (left; intros s'; discriminate).
    destruct criador as [| | | |c| |]; try discriminate He;
      right; intros s'; discriminate.
  - intros [H | H].
    + destruct (prop a "criador") as [| | | |s| |]; eauto.
      exfalso. apply (H s). reflexivity.
    + destruct (prop a "criador") as [| | | |s| |]; eauto.
      destruct criador as [| | | |c| |]; eauto.
      exfalso. apply (H c). reflexivity.
Qed.

(** X8. List throws a [TypeError] exactly when the filter is truthy and
    some stored activity makes the comparison fail: its [criador] is not a
    string, or the filter itself is not a string. In particular it never
    throws on an empty store. *)
Theorem list_throws_iff toLowerCase criador db :
  fst (get_atividades toLowerCase criador db) = Throws TypeError
  <-> truthy criador = true
      /\ exists a, In a (atividades db)
                   /\ ((forall s, prop a "criador" <> JStr s)
                       \/ (forall s, criador <> JStr s)).
Proof.
  unfold get_atividades. destruct (truthy criador).
  - pose proof (filter_throwing_inl (mesmo_criador toLowerCase criador)
                  (atividades db)) as Hf.
    destruct (filter_throwing _ _) as [[]|r] eqn:Hr; simpl.
    + split; [| reflexivity]. intros _. split; [reflexivity |].
      destruct (proj1 Hf (ex_intro _ TypeError eq_refl)) as (a & Ha & He).
      exists a. split; [exact Ha |].
      apply (proj1 (mesmo_criador_inl toLowerCase criador a) He).
    + split; [discriminate |]. intros (_ & a & Ha & He).
      destruct (proj2 Hf) as [e He']; [| discriminate].
      exists a. split; [exact Ha |].
      apply (proj2 (mesmo_criador_inl toLowerCase criador a) He).
  - simpl. split; [discriminate | intros [H _]; discriminate].
Qed.

(** X9. Delete undoes create: when the body has no [id] property and no
    stored activity has the id that is handed out, deleting that id right
    after the creation returns the created record and puts both
    collections back as they were. *)
Theorem delete_undoes_create (body : obj) db :
  body !! "id" = None ->
  (forall a, In a (atividades db) ->
     tem_id (number_of_nat (length (atividades db) + 1)) a = false) ->
  delete_atividades_id (number_of_nat (length (atividades db) + 1))
    (snd (post_atividades body db))
  = (Json 200
       (JObj {[ "mensagem" := JStr "Atividade removida";
                "removida" :=
                  JArr [JObj (<[ "id" := JNum (number_of_nat
                                                (length (atividades db) + 1)) ]>
                                body)] ]}),
     db).
Proof.
  intros Hid Hfresh. unfold post_atividades, delete_atividades_id.
  rewrite (spread_sem_id _ _ Hid). cbn [snd atividades participacoes].
  rewrite (findIndex_app_last _ _ _ Hfresh).
  - rewrite (splice1_lookup (length (atividades db)) _
               (<[ "id" := JNum (number_of_nat (length (atividades db) + 1)) ]>
                  body))
      by (apply list_lookup_middle; reflexivity).
    rewrite delete_middle, app_nil_r. destruct db; reflexivity.
  - unfold tem_id, prop. rewrite lookup_insert_eq.
    apply number_of_nat_eq_refl.
Qed.

(** X9 at a concrete request: the first activity is created and deleted. *)
Lemma delete_undoes_create_witness :
  ({[ "nome" := JStr "Yoga" ]} : obj) !! "id" = None
  /\ (forall a, In a (atividades db_vazio) ->
        tem_id (number_of_nat (length (atividades db_vazio) + 1)) a = false)
  /\ snd (delete_atividades_id n1
            (snd (post_atividades {[ "nome" := JStr "Yoga" ]} db_vazio)))
     = db_vazio.
Proof.
  assert (H1 : ({[ "nome" := JStr "Yoga" ]} : obj) !! "id" = None)
    by reflexivity.
  assert (H2 : forall a, In a (atividades db_vazio) ->
                 tem_id (number_of_nat (length (atividades db_vazio) + 1)) a
                 = false) by (intros a []).
  split; [exact H1 | split; [exact H2 |]].
  exact (f_equal snd
           (delete_undoes_create {[ "nome" := JStr "Yoga" ]} db_vazio H1 H2)).
Defined.

Lemma join_atividades atividadeId body db :
  atividades (snd (post_atividades_id_join atividadeId body db))
  = atividades db.
Proof.
  unfold post_atividades_id_join. destruct (negb _); [reflexivity |].
  destruct (List.find (tem_id _) _); [| reflexivity].
  destruct (List.find _ _); reflexivity.
Qed.

Lemma leave_atividades userId atividadeId db :
  atividades (snd (delete_usuarios_atividades_leave userId atividadeId db))
  = atividades db.
Proof.
  unfold delete_usuarios_atividades_leave.
  destruct (findIndex _ _); reflexivity.
Qed.

Lemma run_ids_sequenciais toLowerCase rs : forall db,
  Forall (fun r => sem_delete_nem_id r = true) rs ->
  (forall i a, atividades db !! i = Some a ->
     prop a "id" = JNum (number_of_nat (i + 1))) ->
  forall i a, atividades (run toLowerCase rs db) !! i = Some a ->
    prop a "id" = JNum (number_of_nat (i + 1)).
Proof.
  induction rs as [|r rs IH]; intros db Hrs Hdb; [exact Hdb |].
  apply Forall_cons in Hrs as [Hr Hrs]. simpl. apply IH; [exact Hrs |].
  destruct r as [c|a u|b|i|a b|u a]; simpl in *.
  - rewrite get_atividades_db. exact Hdb.
  - rewrite get_atividades_id_db. exact Hdb.
  - destruct (b !! "id") eqn:Hb; [discriminate |].
    rewrite (spread_sem_id _ _ Hb).
    intros i x Hx. apply lookup_app_Some in Hx as [Hx | [Hi Hx]]; [eauto |].
    apply list_lookup_singleton_Some in Hx as [Hi' <-].
    unfold prop. rewrite lookup_insert_eq. simpl.
    replace i with (length (atividades db)) by lia. reflexivity.
  - discriminate.
  - rewrite join_atividades. exact Hdb.
  - rewrite leave_atividades. exact Hdb.
Qed.

(** X10. Without deletions ids are sequential: after any sequence of
    requests from empty collections that contains no delete and no create
    whose body carries its own [id], the activity at position [i] of the
    store has id [i + 1]. *)
Theorem ids_are_sequential_without_delete toLowerCase rs i a :
  Forall (fun r => sem_delete_nem_id r = true) rs ->
  atividades (run toLowerCase rs db_vazio) !! i = Some a ->
  prop a "id" = JNum (number_of_nat (i + 1)).
Proof.
  intros Hrs. apply (run_ids_sequenciais toLowerCase rs db_vazio Hrs).
  intros j x Hx. discriminate.
Qed.

(** X10 at a concrete run: three creations, the third activity has id 3. *)
Lemma ids_are_sequential_without_delete_witness :
  Forall (fun r => sem_delete_nem_id r = true)
    [Create {[ "nome" := JStr "Yoga"; "criador" := JStr "Ana" ]};
     Create {[ "nome" := JStr "Leitura"; "criador" := JStr "Bia" ]};
     Create {[ "nome" := JStr "Corrida"; "criador" := JStr "ANA" ]}]
  /\ atividades db_criadores !! 2
     = Some {[ "id" := JNum (number_of_nat 3); "nome" := JStr "Corrida";
               "criador" := JStr "ANA" ]}
  /\ prop ({[ "id" := JNum (number_of_nat 3); "nome" := JStr "Corrida";
              "criador" := JStr "ANA" ]} : obj) "id"
     = JNum (number_of_nat (2 + 1)).
Proof.
  assert (H1 : Forall (fun r => sem_delete_nem_id r = true)
                 [Create {[ "nome" := JStr "Yoga"; "criador" := JStr "Ana" ]};
                  Create {[ "nome" := JStr "Leitura";
                            "criador" := JStr "Bia" ]};
                  Create {[ "nome" := JStr "Corrida";
                            "criador" := JStr "ANA" ]}])
    by (repeat constructor).
  assert (H2 : atividades db_criadores !! 2
               = Some {[ "id" := JNum (number_of_nat 3);
                         "nome" := JStr "Corrida";
                         "criador" := JStr "ANA" ]})
    by (vm_compute; reflexivity).
  split; [exact H1 | split; [exact H2 |]].
  exact (ids_are_sequential_without_delete toLowerCase_ascii _ 2 _ H1 H2).
Defined.

(* ===================================================================== *)
(** ** Ids that are not numbers, and what an error leaves behind *)
(* ===================================================================== *)

Lemma num_eq_nan_r x : num_eq x S754_nan = false.
Proof. destruct x as [s|s| |s m e]; try destruct s; reflexivity. Qed.

Lemma strict_eq_nan_r v : strict_eq v (JNum S754_nan) = false.
Proof. destruct v; try reflexivity. apply num_eq_nan_r. Qed.

Lemma findIndex_all_false {A} (f : A -> bool) l :
  (forall x, f x = false) -> findIndex f l = None.
Proof. intros H. apply findIndex_None. auto. Qed.

Lemma find_all_false {A} (f : A -> bool) l :
  (forall x, f x = false) -> List.find f l = None.
Proof. intros H. apply find_None_iff. auto. Qed.

(** X11. A path id that is not a numeral, for which [Number] gives [NaN],
    matches nothing: in every state get, delete and join (once a [userId]
    is given) answer 404 for the activity, leave answers 404 whichever of
    its two ids is [NaN], and nothing is changed. *)
Theorem nan_ids_are_answered_404 db :
  (forall userId,
      get_atividades_id S754_nan userId db
      = (Json 404 (erro "Atividade não encontrada"), db))
  /\ delete_atividades_id S754_nan db
     = (Json 404 (erro "Atividade não encontrada"), db)
  /\ (forall body,
        truthy (prop body "userId") = true ->
        post_atividades_id_join S754_nan body db
        = (Json 404 (erro "Atividade não encontrada"), db))
  /\ (forall userId,
        delete_usuarios_atividades_leave userId S754_nan db
        = (Json 404 (erro "Usuário não participa desta atividade"), db))
  /\ (forall atividadeId,
        delete_usuarios_atividades_leave S754_nan atividadeId db
        = (Json 404 (erro "Usuário não participa desta atividade"), db)).
Proof.
  assert (Hid : forall a, tem_id S754_nan a = false)
    by (intros a; apply strict_eq_nan_r).
  split; [| split; [| split; [| split]]].
  - intros userId. unfold get_atividades_id.
    rewrite (find_all_false _ _ Hid). reflexivity.
  - unfold delete_atividades_id.
    rewrite (findIndex_all_false _ _ Hid). reflexivity.
  - intros body Ht. unfold post_atividades_id_join. rewrite Ht. simpl.
    rewrite (find_all_false _ _ Hid). reflexivity.
  - intros userId. apply leave_404. intros p _.
    unfold mesma_participacao. rewrite num_eq_nan_r. apply andb_false_r.
  - intros atividadeId. apply leave_404. intros p _.
    unfold mesma_participacao. rewrite strict_eq_nan_r. reflexivity.
Qed.


(* ===================================================================== *)
(** ** The earlier revision: join and leave on [rm], get without flag *)
(* ===================================================================== *)

Lemma strict_eq_nan_l v : strict_eq (JNum S754_nan) v = false.
Proof. destruct v; reflexivity. Qed.

Lemma rev1_join_query_200_inv atividadeId rm db :
  status_of (fst (Rev1.post_atividades_id_join_query atividadeId rm db))
  = Some 200 ->
  (exists a, In a (Rev1.atividades db) /\ tem_id atividadeId a = true)
  /\ (forall p, In p (Rev1.participacoes db) ->
        Rev1.mesma_participacao (JNum rm) atividadeId p = false)
  /\ snd (Rev1.post_atividades_id_join_query atividadeId rm db)
     = Rev1.mkDb (Rev1.atividades db)
         (Rev1.participacoes db
            ++ [Rev1.Participacao.make (JNum rm) atividadeId]).
Proof.
  unfold Rev1.post_atividades_id_join_query.
  destruct (List.find (tem_id _) _) as [a|] eqn:Ha; [| discriminate].
  destruct (List.find (Rev1.mesma_participacao _ _) _) eqn:Hp;
    [discriminate |].
  intros _. repeat split.
  - exists a. apply (find_some _ _ Ha).
  - apply find_none. exact Hp.
Qed.

(** X13. The earlier join that reads [rm] from the query string never
    tests its presence: when [rm] is missing or is not a numeral
    ([Number] gives [NaN]) and the activity exists, the join answers 200
    and pushes one more record, whatever the ledger already holds, so it
    is never refused as a repetition. *)
Theorem rev1_join_without_rm_always_joins atividadeId db :
  (exists a, In a (Rev1.atividades db) /\ tem_id atividadeId a = true) ->
  exists atividade,
    In atividade (Rev1.atividades db)
    /\ tem_id atividadeId atividade = true
    /\ Rev1.post_atividades_id_join_query atividadeId S754_nan db
       = (Json 200
            (JObj {[ "mensagem" :=
                       JStr "Entrada na atividade realizada com sucesso";
                     "atividade" := JObj atividade ]}),
          Rev1.mkDb (Rev1.atividades db)
            (Rev1.participacoes db
               ++ [Rev1.Participacao.make (JNum S754_nan) atividadeId])).
Proof.
  intros Ha. unfold Rev1.post_atividades_id_join_query.
  destruct (find_is_Some _ _ Ha) as (a & -> & Hin & Hfa).
  rewrite find_all_false.
  - exists a. auto.
  - intros p. unfold Rev1.mesma_participacao.
    rewrite strict_eq_nan_r. reflexivity.
Qed.

(** X13 at a concrete state: two joins without [rm] on activity 1 are both
    answered 200. *)
Lemma rev1_join_without_rm_always_joins_witness :
  (exists a, In a (Rev1.atividades rev1_db_uma) /\ tem_id n1 a = true)
  /\ status_of
       (fst (Rev1.post_atividades_id_join_query n1 S754_nan rev1_db_uma))
     = Some 200
  /\ status_of
       (fst (Rev1.post_atividades_id_join_query n1 S754_nan
               (snd (Rev1.post_atividades_id_join_query n1 S754_nan
                       rev1_db_uma))))
     = Some 200.
Proof.
  assert (H : exists a, In a (Rev1.atividades rev1_db_uma)
                        /\ tem_id n1 a = true).
  { exists {[ "id" := JNum n1 ]}. split; [left |]; vm_compute; reflexivity. }
  split; [exact H |].
  destruct (rev1_join_without_rm_always_joins n1 rev1_db_uma H)
    as (atividade & _ & _ & ->).
  split; [reflexivity |]. vm_compute. reflexivity.
Defined.

(** X14. In the earlier revision a record whose [rm] is [NaN] can never be
    left: whatever the body and the activity id of a leave, the record is
    still in the ledger afterwards. *)
Theorem rev1_nan_rm_is_never_left atividadeId body db p :
  In p (Rev1.participacoes db) ->
  Rev1.Participacao.rm p = JNum S754_nan ->
  In p (Rev1.participacoes
          (snd (Rev1.delete_atividades_id_leave atividadeId body db))).
Proof.
  intros Hp Hrm. unfold Rev1.delete_atividades_id_leave.
  destruct (findIndex _ _) as [index|] eqn:Hi; [| exact Hp].
  apply findIndex_Some in Hi as (q & Hq & Hfq & _).
  rewrite (splice1_lookup index _ q Hq). simpl.
  apply In_delete_iff.
  apply list_elem_of_In, list_elem_of_lookup in Hp as [j Hj].
  exists j. split; [| exact Hj]. intros ->.
  assert (q = p) by congruence. subst q.
  unfold Rev1.mesma_participacao in Hfq.
  rewrite Hrm, strict_eq_nan_l in Hfq. discriminate.
Qed.

(** X14 at a concrete state: the record of a join without [rm] stays
    after a leave whose body has no [rm] either. *)
Lemma rev1_nan_rm_is_never_left_witness :
  In (Rev1.Participacao.make (JNum S754_nan) n1)
    (Rev1.participacoes
       (snd (Rev1.post_atividades_id_join_query n1 S754_nan rev1_db_uma)))
  /\ In (Rev1.Participacao.make (JNum S754_nan) n1)
       (Rev1.participacoes
          (snd (Rev1.delete_atividades_id_leave n1 ∅
                  (snd (Rev1.post_atividades_id_join_query n1 S754_nan
                          rev1_db_uma))))).
Proof.
  assert (H : In (Rev1.Participacao.make (JNum S754_nan) n1)
                (Rev1.participacoes
                   (snd (Rev1.post_atividades_id_join_query n1 S754_nan
                           rev1_db_uma))))
    by (left; vm_compute; reflexivity).
  split; [exact H |].
  exact (rev1_nan_rm_is_never_left n1 ∅ _ _ H eq_refl).
Defined.

(** X15. In the earlier revision leave undoes join: after a join through
    the query string that succeeded with an [rm] that is a number, a leave
    whose body gives the same number as [rm] answers 200 and puts both
    collections back as they were before the join. *)
Theorem rev1_leave_undoes_join atividadeId rm (body : obj) db :
  rm <> S754_nan ->
  prop body "rm" = JNum rm ->
  status_of (fst (Rev1.post_atividades_id_join_query atividadeId rm db))
  = Some 200 ->
  Rev1.delete_atividades_id_leave atividadeId body
    (snd (Rev1.post_atividades_id_join_query atividadeId rm db))
  = (Json 200
       (JObj {[ "mensagem" := JStr "Usuário saiu da atividade com sucesso";
                "atividadeId" := JNum atividadeId;
                "rm" := JNum rm ]}),
     db).
Proof.
  intros Hrm Hbody H.
  destruct (rev1_join_query_200_inv _ _ _ H) as ((a & _ & Hfa) & Hnone & ->).
  unfold Rev1.delete_atividades_id_leave. rewrite Hbody.
  cbn [Rev1.participacoes Rev1.atividades].
  rewrite (findIndex_app_last _ _ _ Hnone).
  - rewrite (splice1_lookup (length (Rev1.participacoes db)) _
               (Rev1.Participacao.make (JNum rm) atividadeId))
      by (apply list_lookup_middle; reflexivity).
    cbn [snd]. rewrite delete_middle, app_nil_r.
    destruct db; reflexivity.
  - unfold Rev1.mesma_participacao. simpl.
    rewrite (num_eq_refl rm Hrm), (tem_id_not_nan _ _ Hfa). reflexivity.
Qed.

(** X15 at a concrete request: [rm] 42 joins activity 1 and leaves it. *)
Lemma rev1_leave_undoes_join_witness :
  n42 <> S754_nan
  /\ prop ({[ "rm" := JNum n42 ]} : obj) "rm" = JNum n42
  /\ status_of (fst (Rev1.post_atividades_id_join_query n1 n42 rev1_db_uma))
     = Some 200
  /\ snd (Rev1.delete_atividades_id_leave n1 {[ "rm" := JNum n42 ]}
            (snd (Rev1.post_atividades_id_join_query n1 n42 rev1_db_uma)))
     = rev1_db_uma.
Proof.
  assert (H1 : n42 <> S754_nan) by apply number_of_nat_not_nan.
  assert (H2 : prop ({[ "rm" := JNum n42 ]} : obj) "rm" = JNum n42)
    by reflexivity.
  assert (H3 : status_of
                 (fst (Rev1.post_atividades_id_join_query n1 n42 rev1_db_uma))
               = Some 200) by (vm_compute; reflexivity).
  split; [exact H1 | split; [exact H2 | split; [exact H3 |]]].
  exact (f_equal snd
           (rev1_leave_undoes_join n1 n42 {[ "rm" := JNum n42 ]} rev1_db_uma
              H1 H2 H3)).
Defined.



(** X17. In the earlier revision get returns the stored record as it is:
    when the body has no [id] property and no stored activity has the id
    that is handed out, a get on that id right after the creation answers
    200 with exactly the record the creation returned. *)
Theorem rev1_get_after_create (body : obj) db :
  body !! "id" = None ->
  (forall a, In a (Rev1.atividades db) ->
     tem_id (number_of_nat (length (Rev1.atividades db) + 1)) a = false) ->
  exists A : obj,
    fst (Rev1.post_atividades body db) = Json 201 (JObj A)
    /\ A = <[ "id" := JNum (number_of_nat (length (Rev1.atividades db) + 1)) ]>
             body
    /\ fst (Rev1.get_atividades_id
              (number_of_nat (length (Rev1.atividades db) + 1))
              (snd (Rev1.post_atividades body db)))
       = Json 200 (JObj A).
Proof.
  intros Hid Hfresh. unfold Rev1.post_atividades, Rev1.get_atividades_id.
  rewrite (spread_sem_id _ _ Hid). eexists. split; [reflexivity |].
  split; [reflexivity |]. cbn [snd Rev1.atividades].
  rewrite (find_app_last _ _ _ Hfresh); [reflexivity |].
  unfold tem_id, prop. rewrite lookup_insert_eq.
  apply number_of_nat_eq_refl.
Qed.

(** X17 at a concrete request: the first activity is read back. *)
Lemma rev1_get_after_create_witness :
  ({[ "nome" := JStr "Yoga" ]} : obj) !! "id" = None
  /\ (forall a, In a (Rev1.atividades (Rev1.mkDb [] [])) ->
        tem_id (number_of_nat
                  (length (Rev1.atividades (Rev1.mkDb [] [])) + 1)) a = false)
  /\ fst (Rev1.get_atividades_id n1
            (snd (Rev1.post_atividades {[ "nome" := JStr "Yoga" ]}
                    (Rev1.mkDb [] []))))
     = Json 200 (JObj (<[ "id" := JNum n1 ]> {[ "nome" := JStr "Yoga" ]})).
Proof.
  assert (H1 : ({[ "nome" := JStr "Yoga" ]} : obj) !! "id" = None)
    by reflexivity.
  assert (H2 : forall a, In a (Rev1.atividades (Rev1.mkDb [] [])) ->
                 tem_id (number_of_nat
                           (length (Rev1.atividades (Rev1.mkDb [] [])) + 1)) a
                 = false) by (intros a []).
  split; [exact H1 | split; [exact H2 |]].
  destruct (rev1_get_after_create {[ "nome" := JStr "Yoga" ]}
              (Rev1.mkDb [] []) H1 H2) as (A & _ & -> & Hget).
  exact Hget.
Defined.

(** X18. In the earlier revision join through the query string stores
    [rm] as a number while leave compares the body's [rm] as it is: on a
    ledger whose records all hold a number, a leave whose body gives [rm]
    as a string answers 404 and changes nothing. *)
Theorem rev1_leave_with_string_rm_is_404 atividadeId (body : obj) s db :
  (forall p, In p (Rev1.participacoes db) ->
     exists n, Rev1.Participacao.rm p = JNum n) ->
  prop body "rm" = JStr s ->
  Rev1.delete_atividades_id_leave atividadeId body db
  = (Json 404 (erro "Usuário não participa desta atividade"), db).
Proof.
  intros Hnum Hbody. unfold Rev1.delete_atividades_id_leave.
  rewrite Hbody. rewrite (proj2 (findIndex_None _ _)); [reflexivity |].
  intros p Hp. destruct (Hnum p Hp) as [n Hn].
  unfold Rev1.mesma_participacao. rewrite Hn. reflexivity.
Qed.

(** X18 at a concrete request: [rm] 42 joined through the query string,
    and the leave gives ["42"]. *)
Lemma rev1_leave_with_string_rm_is_404_witness :
  (forall p,
      In p (Rev1.participacoes
              (snd (Rev1.post_atividades_id_join_query n1 n42 rev1_db_uma))) ->
      exists n, Rev1.Participacao.rm p = JNum n)
  /\ prop ({[ "rm" := JStr "42" ]} : obj) "rm" = JStr "42"
  /\ fst (Rev1.delete_atividades_id_leave n1 {[ "rm" := JStr "42" ]}
            (snd (Rev1.post_atividades_id_join_query n1 n42 rev1_db_uma)))
     = Json 404 (erro "Usuário não participa desta atividade").
Proof.
  assert (H1 : forall p,
             In p (Rev1.participacoes
                     (snd (Rev1.post_atividades_id_join_query n1 n42
                             rev1_db_uma))) ->
             exists n, Rev1.Participacao.rm p = JNum n).
  { intros p Hp. vm_compute in Hp. destruct Hp as [<- | []].
    eexists. reflexivity. }
  assert (H2 : prop ({[ "rm" := JStr "42" ]} : obj) "rm" = JStr "42")
    by reflexivity.
  split; [exact H1 | split; [exact H2 |]].
  rewrite (rev1_leave_with_string_rm_is_404 n1 {[ "rm" := JStr "42" ]} "42"
             _ H1 H2).
  reflexivity.
Defined.

Lemma rev1_mesmo_criador_inl toLowerCase creatorName a :
  (exists e, Rev1.mesmo_criador toLowerCase creatorName a = inl e)
  <-> (forall s, prop a "creatorName" <> JStr s)
      \/ (forall s, creatorName <> JStr s).
Proof.
  unfold Rev1.mesmo_criador, call_toLowerCase. split.
  - intros [e He].
    destruct (prop a "creatorName") as [| | | |s| |];
      try (left; intros s'; discriminate).
    destruct creatorName as [| | | |c| |]; try discriminate He;
      right; intros s'; discriminate.
  - intros [H | H].
    + destruct (prop a "creatorName") as [| | | |s| |]; eauto.
      exfalso. apply (H s). reflexivity.
    + destruct (prop a "creatorName") as [| | | |s| |]; eauto.
      destruct creatorName as [| | | |c| |]; eauto.
      exfalso. apply (H c). reflexivity.
Qed.

(** X19. The earlier list filters on [creatorName]: it throws a
    [TypeError] exactly when the filter is truthy and some stored activity
    has a [creatorName] that is not a string, or the filter itself is not
    a string. In particular it never throws on an empty store. *)
Theorem rev1_list_throws_iff toLowerCase creatorName db :
  fst (Rev1.get_atividades toLowerCase creatorName db) = Throws TypeError
  <-> truthy creatorName = true
      /\ exists a, In a (Rev1.atividades db)
                   /\ ((forall s, prop a "creatorName" <> JStr s)
                       \/ (forall s, creatorName <> JStr s)).
Proof.
  unfold Rev1.get_atividades. destruct (truthy creatorName).
  - pose proof (filter_throwing_inl
                  (Rev1.mesmo_criador toLowerCase creatorName)
                  (Rev1.atividades db)) as Hf.
    destruct (filter_throwing _ _) as [[]|r] eqn:Hr; simpl.
    + split; [| reflexivity]. intros _. split; [reflexivity |].
      destruct (proj1 Hf (ex_intro _ TypeError eq_refl)) as (a & Ha & He).
      exists a. split; [exact Ha |].
      apply (proj1 (rev1_mesmo_criador_inl toLowerCase creatorName a) He).
    + split; [discriminate |]. intros (_ & a & Ha & He).
      destruct (proj2 Hf) as [e He']; [| discriminate].
      exists a. split; [exact Ha |].
      apply (proj2 (rev1_mesmo_criador_inl toLowerCase creatorName a) He).
  - simpl. split; [discriminate | intros [H _]; discriminate].
Qed.

(** X20. In every reachable state every stored activity has an [id]
    property of its own: create always sets one, and nothing else adds or
    alters an activity. *)
Theorem stored_activities_have_an_id toLowerCase db a :
  reachable toLowerCase db ->
  In a (atividades db) ->
  exists v, a !! "id" = Some v.
Proof.
  intros Hr. revert a.
  induction Hr as [|r db Hr IH]; intros a Ha; [destruct Ha |].
  destruct r as [c|x u|b|i|x b|u x]; simpl in Ha.
  - rewrite get_atividades_db in Ha. auto.
  - rewrite get_atividades_id_db in Ha. auto.
  - apply in_app_or in Ha as [Ha | [<- | []]]; [auto |].
    rewrite lookup_union. destruct (b !! "id") as [v|] eqn:Hb.
    + exists v. rewrite lookup_singleton_eq. reflexivity.
    + rewrite lookup_singleton_eq. eauto.
  - unfold delete_atividades_id in Ha.
    destruct (findIndex _ _) as [index|] eqn:Hi; [| auto].
    apply findIndex_Some in Hi as (y & Hy & _).
    rewrite (splice1_lookup index _ y Hy) in Ha. simpl in Ha.
    apply IH, (In_delete index _ a Ha).
  - rewrite join_atividades in Ha. auto.
  - rewrite leave_atividades in Ha. auto.
Qed.

(** X20 at a reachable state: the activity created from an empty body. *)
Lemma stored_activities_have_an_id_witness :
  reachable toLowerCase_ascii db_uma
  /\ In ({[ "id" := JNum n1 ]} : obj) (atividades db_uma)
  /\ exists v, ({[ "id" := JNum n1 ]} : obj) !! "id" = Some v.
Proof.
  assert (H1 : reachable toLowerCase_ascii db_uma)
    by apply reachable_run, reachable_vazio.
  assert (H2 : In ({[ "id" := JNum n1 ]} : obj) (atividades db_uma))
    by (left; vm_compute; reflexivity).
  split; [exact H1 | split; [exact H2 |]].
  exact (stored_activities_have_an_id toLowerCase_ascii db_uma _ H1 H2).
Defined.
